(** * MTGLeague: the tournament data model of [mtgleague/models.py]

    A shallow embedding of the SQLAlchemy models: every table is a list of
    rows, every ORM method is a function
    over the session state, and Python exceptions are values of [result].
    Integers are Python's unbounded [int] ([Z]); a [date] is its proleptic
    ordinal ([date.toordinal()]), so that date comparison is [Z] comparison;
    [date.today()] and [datetime.now()] are read from the environment and
    are explicit arguments here.  Columns and tables that none of the
    modelled methods reads (names, e-mail, password hash, posts) are left
    out of the rows. *)

From Stdlib Require Import ZArith QArith Lia.
From stdpp Require Import base decidable option list sorting.

Local Open Scope Z_scope.

(** ** Exceptions *)

(** The first two constructors are the Python faults the methods can end
    in: an attribute read or write on [None], and a division by zero.  The
    remaining ones are the error names of the specification's taxonomy;
    no method of the source raises them. *)
Inductive exn : Set :=
  | AttributeError
  | ZeroDivisionError
  | EmptyCollectionError
  | DuplicateMembershipError
  | MembershipNotFoundError
  | NoMatchesError.

Inductive result (A : Type) : Type :=
  | Ok (a : A)
  | Raise (e : exn).
Arguments Ok {A} a.
Arguments Raise {A} e.

Definition bind {A B} (r : result A) (k : A -> result B) : result B :=
  match r with
  | Ok a => k a
  | Raise e => Raise e
  end.

Declare Scope py_scope.
Delimit Scope py_scope with py.
Notation "'let*' x := e 'in' k" := (bind e (fun x => k))
  (at level 10, x name, e at level 100, k at level 200) : py_scope.

(** [obj.attr] where [obj] is the outcome of [Query.first()]: [None] has no
    attribute. *)
Definition getattr {A B} (obj : option A) (attr : A -> B) : result B :=
  match obj with
  | Some a => Ok (attr a)
  | None => Raise AttributeError
  end.

(** [Query.order_by(...)]. The store leaves the order of rows with equal
    keys open; here it is fixed by the order of the table, and the same
    query on the same state gives the same rows each time. The statements
    below hold for every order of the table. *)
Definition order_by {A} (R : relation A) `{!RelDecision R} (rows : list A) : list A :=
  merge_sort R rows.

(** [Query.first()] *)
Definition first {A} (rows : list A) : option A := head rows.

(** [a / b] on two row counts: Python 3's true division, which raises on a
    zero divisor. The quotient is kept as an exact rational. *)
Definition truediv (a b : nat) : result Q :=
  match b with
  | O => Raise ZeroDivisionError
  | S _ => Ok (Z.of_nat a # Pos.of_nat b)
  end.

Definition date := Z.
Definition datetime := Z.

(** ** Rows *)

Module Stage.
Record t : Set := mk
  { id : Z;
    event_id : Z;
    start_date : date;
    end_date : date }.
End Stage.

Module Membership.
Record t : Set := mk
  { id : Z;
    user_id : Z;
    league_id : Z;
    moderator : bool;
    owner : bool }.

Definition set_moderator (b : bool) (self : t) : t :=
  mk (id self) (user_id self) (league_id self) b (owner self).
Definition set_owner (b : bool) (self : t) : t :=
  mk (id self) (user_id self) (league_id self) (moderator self) b.
End Membership.

Module Match.
(** A relationship attribute ([participant1], [winner], ...) is its
    foreign key: two [Participant] objects of one session are the same
    object exactly when they are the same row. *)
Record t : Set := mk
  { id : Z;
    stage_id : Z;
    p1_id : Z;
    p2_id : Z;
    winner_id : option Z;
    loser_id : option Z;
    p1_wins : option Z;
    p2_wins : option Z;
    draws : option Z;
    timestamp : option datetime }.

Definition participant1 (self : t) : option Z := Some (p1_id self).
Definition participant2 (self : t) : option Z := Some (p2_id self).
Definition winner := winner_id.
Definition loser := loser_id.

Definition __init__ (id stage participant1 participant2 : Z) : t :=
  mk id stage participant1 participant2 None None None None None None.

Definition set_counts (a b d : Z) (now : datetime) (self : t) : t :=
  mk (id self) (stage_id self) (p1_id self) (p2_id self)
     (winner_id self) (loser_id self) (Some a) (Some b) (Some d) (Some now).

Definition set_winner_loser (w l : option Z) (self : t) : t :=
  mk (id self) (stage_id self) (p1_id self) (p2_id self)
     w l (p1_wins self) (p2_wins self) (draws self) (timestamp self).

Definition add_results (now : datetime) (self : t) (p1_wins p2_wins draws : Z) : t :=
  let self := set_counts p1_wins p2_wins draws now self in
  let self :=
    if 2 <=? p1_wins
    then set_winner_loser (participant1 self) (participant2 self) self
    else self in
  let self :=
    if 2 <=? p2_wins
    then set_winner_loser (participant2 self) (participant1 self) self
    else self in
  self.
End Match.

Module User.
Record t : Set := mk
  { id : Z;
    admin : bool;
    join_date : date }.
End User.

(** ** The session state

    The tables the methods below read or write. Rows are kept in the order
    the store returns them for an unordered query. *)
Record DB : Set := mkDB
  { stage_table : list Stage.t;
    match_table : list Match.t;
    membership_table : list Membership.t }.

Definition set_membership_table (ms : list Membership.t) (db : DB) : DB :=
  mkDB (stage_table db) (match_table db) ms.

(** The primary key the store gives to a new row: one past the largest in
    use. *)
Definition next_id (ids : list Z) : Z := 1 + foldr Z.max 0 ids.

(** ** Event *)

Module Event.
Record t : Set := mk
  { id : Z;
    league_id : Z }.

(** [self.stages]: the dynamic relationship, a query on [Stage.event_id]. *)
Definition stages (db : DB) (self : t) : list Stage.t :=
  filter (fun s => Stage.event_id s = id self) (stage_table db).

(** [Stage.start_date] and [Stage.start_date.desc()] as sort orders. *)
Definition start_asc (s u : Stage.t) : Prop :=
  Stage.start_date s <= Stage.start_date u.
Definition start_desc (s u : Stage.t) : Prop :=
  Stage.start_date u <= Stage.start_date s.

#[global] Instance start_asc_dec : RelDecision start_asc :=
  fun s u => Z_le_dec (Stage.start_date s) (Stage.start_date u).
#[global] Instance start_desc_dec : RelDecision start_desc :=
  fun s u => Z_le_dec (Stage.start_date u) (Stage.start_date s).

Definition get_start_date (db : DB) (self : t) : result date :=
  let first_stage := first (order_by start_asc (stages db self)) in
  getattr first_stage Stage.start_date.

Definition get_end_date (db : DB) (self : t) : result date :=
  let last_stage := first (order_by start_desc (stages db self)) in
  getattr last_stage Stage.end_date.

Definition is_past (today : date) (db : DB) (self : t) : result bool :=
  let last_stage := first (order_by start_desc (stages db self)) in
  (let* e := getattr last_stage Stage.end_date in
   Ok (e <=? today))%py.

(** [a <= today <= b] is a chained comparison: [b] is evaluated only when
    [a <= today] holds. *)
Definition in_progress (today : date) (db : DB) (self : t) : result bool :=
  let first_stage := first (order_by start_asc (stages db self)) in
  let last_stage := first (order_by start_desc (stages db self)) in
  (let* s := getattr first_stage Stage.start_date in
   if s <=? today
   then let* e := getattr last_stage Stage.end_date in Ok (today <=? e)
   else Ok false)%py.

Definition is_upcoming (today : date) (db : DB) (self : t) : result bool :=
  let first_stage := first (order_by start_asc (stages db self)) in
  (let* s := getattr first_stage Stage.start_date in
   Ok (today <=? s))%py.
End Event.

(** ** League *)

Module League.
Record t : Set := mk
  { id : Z;
    creator_id : Z;
    creation_date : date }.

(** [Membership(user, self)] with the constructor's defaults
    [moderator=False, owner=False], then [db.session.add] and [commit]. *)
Definition new_membership (db : DB) (user : User.t) (league : t)
    (moderator owner : bool) : Membership.t :=
  Membership.mk (next_id (Membership.id <$> membership_table db))
                (User.id user) (id league) moderator owner.

Definition add_member (db : DB) (self : t) (user : User.t) : result DB :=
  let membership := new_membership db user self false false in
  Ok (set_membership_table (membership_table db ++ [membership]) db).

(** [Membership.query.filter(and_(Membership.league_id == self.id,
    Membership.user == user)).first()], with the position of the row. *)
Definition find_membership (db : DB) (self : t) (user : User.t)
    : option (nat * Membership.t) :=
  list_find (fun m => Membership.league_id m = id self
                      /\ Membership.user_id m = User.id user)
            (membership_table db).

(** Writing an attribute of the outcome of [first()]; the commit stores
    the changed object in its row. *)
Definition add_moderator (db : DB) (self : t) (user : User.t) : result DB :=
  match find_membership db self user with
  | None => Raise AttributeError
  | Some (i, membership) =>
      let membership := Membership.set_moderator true membership in
      let membership := Membership.set_owner false membership in
      Ok (set_membership_table (<[i := membership]> (membership_table db)) db)
  end.

Definition add_owner (db : DB) (self : t) (user : User.t) : result DB :=
  match find_membership db self user with
  | None => Raise AttributeError
  | Some (i, membership) =>
      let membership := Membership.set_moderator false membership in
      let membership := Membership.set_owner true membership in
      Ok (set_membership_table (<[i := membership]> (membership_table db)) db)
  end.
End League.

(** ** Participant *)

Module Participant.
Record t : Set := mk
  { id : Z;
    user_id : Z;
    event_id : Z }.

Definition get_matches (db : DB) (self : t) : list Match.t :=
  filter (fun m => Match.p1_id m = id self \/ Match.p2_id m = id self)
         (match_table db).

Definition get_matches_count (db : DB) (self : t) : nat :=
  length (filter (fun m => Match.p1_id m = id self \/ Match.p2_id m = id self)
                 (match_table db)).

Definition get_matches_won (db : DB) (self : t) : list Match.t :=
  filter (fun m => Match.winner_id m = Some (id self)) (match_table db).

Definition get_matches_won_count (db : DB) (self : t) : nat :=
  length (filter (fun m => Match.winner_id m = Some (id self)) (match_table db)).

Definition get_matches_lost (db : DB) (self : t) : list Match.t :=
  filter (fun m => Match.loser_id m = Some (id self)) (match_table db).

Definition get_matches_lost_count (db : DB) (self : t) : nat :=
  length (filter (fun m => Match.loser_id m = Some (id self)) (match_table db)).

Definition match_win_percentage (db : DB) (self : t) : result Q :=
  let matches_won := get_matches_won_count db self in
  let matches_total := get_matches_count db self in
  truediv matches_won matches_total.
End Participant.

(** ** The current actor: [User] or [AnonymousUser] *)

Class Actor (A : Type) : Type :=
  { is_admin : A -> bool;
    is_anonymous : A -> bool;
    is_member : DB -> A -> League.t -> bool }.

Module AnonymousUser.
Inductive t : Set := anonymous.

Definition is_admin (self : t) : bool := false.
Definition is_anonymous (self : t) : bool := true.
Definition is_member (self : t) (league : League.t) : bool := false.
End AnonymousUser.

Module UserMethods.
Definition is_admin (self : User.t) : bool := User.admin self.
Definition is_anonymous (self : User.t) : bool := false.

(** [league in [membership.league for membership in self.memberships]] *)
Definition is_member (db : DB) (self : User.t) (league : League.t) : bool :=
  let leagues :=
    Membership.league_id <$>
      filter (fun m => Membership.user_id m = User.id self) (membership_table db) in
  bool_decide (League.id league ∈ leagues).
End UserMethods.

#[global] Instance user_actor : Actor User.t :=
  {| is_admin := UserMethods.is_admin;
     is_anonymous := UserMethods.is_anonymous;
     is_member := UserMethods.is_member |}.

#[global] Instance anonymous_actor : Actor AnonymousUser.t :=
  {| is_admin := AnonymousUser.is_admin;
     is_anonymous := AnonymousUser.is_anonymous;
     is_member := fun _ => AnonymousUser.is_member |}.


(** ** Sequences of result submissions *)

(** One invocation of [add_results]: the clock reading and the three
    arguments. *)
Record call : Set := mkCall
  { at_time : datetime;
    arg_p1_wins : Z;
    arg_p2_wins : Z;
    arg_draws : Z }.

Definition apply_call (m : Match.t) (c : call) : Match.t :=
  Match.add_results (at_time c) m (arg_p1_wins c) (arg_p2_wins c) (arg_draws c).

Definition replay (calls : list call) (m : Match.t) : Match.t :=
  foldl apply_call m calls.

(** A call that reaches the best-of-three threshold for either side. *)
Definition decisive (c : call) : Prop :=
  2 <= arg_p1_wins c \/ 2 <= arg_p2_wins c.

(** ** Vocabulary of the statements and the scenarios they are tried on *)

(** The specification's words for an event's date range: the minimum of the
    stages' start dates and the maximum of their end dates. *)
Definition minimum (ds : list Z) : option Z :=
  match ds with
  | [] => None
  | d :: ds => Some (foldr Z.min d ds)
  end.

Definition maximum (ds : list Z) : option Z :=
  match ds with
  | [] => None
  | d :: ds => Some (foldr Z.max d ds)
  end.

Definition effective_start_date (db : DB) (ev : Event.t) : option date :=
  minimum (Stage.start_date <$> Event.stages db ev).

Definition effective_end_date (db : DB) (ev : Event.t) : option date :=
  maximum (Stage.end_date <$> Event.stages db ev).

(** Stages whose end dates come in the order of their start dates. *)
Definition ends_follow_starts (ss : list Stage.t) : Prop :=
  forall s u, s ∈ ss -> u ∈ ss ->
    Stage.start_date s <= Stage.start_date u -> Stage.end_date s <= Stage.end_date u.

Definition exactly_one (b1 b2 b3 : bool) : Prop :=
  (b1, b2, b3) = (true, false, false) \/
  (b1, b2, b3) = (false, true, false) \/
  (b1, b2, b3) = (false, false, true).

(** The spec's scenario: one stage from 2024-01-01 to 2024-01-05. *)
Definition january_stage : Stage.t := Stage.mk 1 1 738886 738890.

Definition january_db : DB := mkDB [january_stage] [] [].

Definition january_event : Event.t := Event.mk 1 1.

(** An event with a long stage and a shorter stage that starts later and
    ends earlier. *)
Definition nested_db : DB :=
  mkDB [Stage.mk 1 1 738886 738900; Stage.mk 2 1 738890 738895] [] [].

Definition empty_db : DB := mkDB [] [] [].

(** Three overlapping stages of event 1, stored out of date order: the
    second row starts first, the third row starts and ends last. *)
Definition overlapping_db : DB :=
  mkDB [Stage.mk 2 1 738890 738900;
        Stage.mk 1 1 738886 738895;
        Stage.mk 3 1 738893 738905;
        Stage.mk 4 2 738800 738990] [] [].

(** A membership that is not both moderator and owner. *)
Definition one_role (m : Membership.t) : Prop :=
  ~ (Membership.moderator m = true /\ Membership.owner m = true).

(** The row [m] with its two role flags replaced. *)
Definition with_roles (mo ow : bool) (m : Membership.t) : Membership.t :=
  Membership.mk (Membership.id m) (Membership.user_id m) (Membership.league_id m)
                mo ow.

Definition is_membership_of (league : League.t) (user : User.t) (m : Membership.t) : Prop :=
  Membership.league_id m = League.id league /\ Membership.user_id m = User.id user.


(** League 3 with user 7 as its owner and user 8 as a plain member. *)
Definition club : League.t := League.mk 3 7 738000.

Definition alice : User.t := User.mk 7 false 738000.

Definition bob : User.t := User.mk 8 false 738001.

Definition club_db : DB :=
  mkDB [] [] [Membership.mk 1 7 3 false true; Membership.mk 2 8 3 false false].

(** The data-model conditions on a match's outcome: a winner or loser that
    is set is one of the match's two participants, and they are not the
    same participant. *)
Definition winner_in_match (m : Match.t) : Prop :=
  forall w, Match.winner_id m = Some w -> w = Match.p1_id m \/ w = Match.p2_id m.

Definition loser_in_match (m : Match.t) : Prop :=
  forall l, Match.loser_id m = Some l -> l = Match.p1_id m \/ l = Match.p2_id m.

Definition winner_is_not_loser (m : Match.t) : Prop :=
  forall w l, Match.winner_id m = Some w -> Match.loser_id m = Some l -> w <> l.

Definition outcome_wf (m : Match.t) : Prop :=
  winner_in_match m /\ loser_in_match m /\ winner_is_not_loser m.

(** The spec's scenario: participants 10 and 20 and their match, resolved
    2-0; participant 30 has an unplayed match against 10. *)
Definition scenario_db : DB :=
  mkDB [january_stage]
       [Match.add_results 100 (Match.__init__ 1 1 10 20) 2 0 0;
        Match.__init__ 2 1 10 30]
       [].

Definition p10 : Participant.t := Participant.mk 10 7 1.

Definition p20 : Participant.t := Participant.mk 20 8 1.

Definition p40 : Participant.t := Participant.mk 40 9 1.

(** ** The remaining tables and methods *)

(** The session with the tables of events and participants beside the
    three of [DB]. *)
Record Session : Set := mkSession
  { tables : DB;
    event_table : list Event.t;
    participant_table : list Participant.t }.

Definition set_participant_table (ps : list Participant.t) (s : Session) : Session :=
  mkSession (tables s) (event_table s) ps.

(** [[x for x in rows if cond(x)]] with a condition that can raise: the
    rows are tested in order and the first fault ends the comprehension. *)
Fixpoint comprehension {A} (cond : A -> result bool) (rows : list A) : result (list A) :=
  match rows with
  | [] => Ok []
  | x :: rows =>
      (let* keep := cond x in
       let* rest := comprehension cond rows in
       Ok (if keep then x :: rest else rest))%py
  end.

Module LeagueMethods.
(** [self.members], the dynamic relationship on [Membership.league_id]. *)
Definition members (db : DB) (self : League.t) : list Membership.t :=
  filter (fun m => Membership.league_id m = League.id self) (membership_table db).

(** [self.events.all()] *)
Definition events (s : Session) (self : League.t) : list Event.t :=
  filter (fun e => Event.league_id e = League.id self) (event_table s).

(** A user in the lists below is the [user_id] of the membership. *)
Definition get_members (db : DB) (self : League.t) : list Z :=
  Membership.user_id <$> members db self.

Definition get_moderators (db : DB) (self : League.t) : list Z :=
  let moderators :=
    filter (fun m => Membership.league_id m = League.id self
                     /\ Membership.moderator m = true)
           (membership_table db) in
  Membership.user_id <$> moderators.

Definition get_owners (db : DB) (self : League.t) : list Z :=
  let owners :=
    filter (fun m => Membership.league_id m = League.id self
                     /\ Membership.owner m = true)
           (membership_table db) in
  Membership.user_id <$> owners.

Definition editable_by_user (db : DB) (self : League.t) (user : User.t) : bool :=
  (User.id user =? League.creator_id self)
  || bool_decide (User.id user ∈ get_moderators db self).

Definition current_events (today : date) (s : Session) (self : League.t)
    : result (list Event.t) :=
  comprehension (fun event => Event.in_progress today (tables s) event) (events s self).

Definition past_events (today : date) (s : Session) (self : League.t)
    : result (list Event.t) :=
  comprehension (fun event => Event.is_past today (tables s) event) (events s self).

Definition upcoming_events (today : date) (s : Session) (self : League.t)
    : result (list Event.t) :=
  comprehension (fun event => Event.is_upcoming today (tables s) event) (events s self).
End LeagueMethods.

Module EventMethods.
(** [self.participants], the dynamic relationship on [Participant.event_id]. *)
Definition participants (s : Session) (self : Event.t) : list Participant.t :=
  filter (fun p => Participant.event_id p = Event.id self) (participant_table s).

(** [Participant(user, self)], [db.session.add], [commit]; nothing here can
    raise. *)
Definition add_participant (s : Session) (self : Event.t) (user : User.t) : Session :=
  let participant :=
    Participant.mk (next_id (Participant.id <$> participant_table s))
                   (User.id user) (Event.id self) in
  set_participant_table (participant_table s ++ [participant]) s.

Definition is_participant (s : Session) (self : Event.t) (user : User.t) : bool :=
  match first (filter (fun p => Participant.user_id p = User.id user)
                      (participants s self)) with
  | Some _ => true
  | None => false
  end.
End EventMethods.

Module UserStandings.
(** [self.participants], the dynamic relationship on [Participant.user_id]. *)
Definition participants (s : Session) (self : User.t) : list Participant.t :=
  filter (fun p => Participant.user_id p = User.id self) (participant_table s).

(** A league in this list is the [league_id] of the membership. *)
Definition get_leagues (db : DB) (self : User.t) : list Z :=
  Membership.league_id <$>
    filter (fun m => Membership.user_id m = User.id self) (membership_table db).

Definition get_matches (s : Session) (self : User.t) : list Match.t :=
  foldl (fun matches p => matches ++ Participant.get_matches (tables s) p)
        [] (participants s self).

Definition get_matches_count (s : Session) (self : User.t) : nat :=
  foldl (fun num_matches p =>
           (num_matches + Participant.get_matches_count (tables s) p)%nat)
        0%nat (participants s self).

Definition get_matches_won (s : Session) (self : User.t) : list Match.t :=
  foldl (fun matches_won p => matches_won ++ Participant.get_matches_won (tables s) p)
        [] (participants s self).

Definition get_matches_won_count (s : Session) (self : User.t) : nat :=
  foldl (fun num_matches_won p =>
           (num_matches_won + Participant.get_matches_won_count (tables s) p)%nat)
        0%nat (participants s self).

Definition match_win_percentage (s : Session) (self : User.t) : result Q :=
  truediv (get_matches_won_count s self) (get_matches_count s self).
End UserStandings.

(** The user holds at most one membership row in the league. *)
Definition single_membership (db : DB) (league : League.t) (user : User.t) : Prop :=
  forall i j m1 m2,
    membership_table db !! i = Some m1 -> membership_table db !! j = Some m2 ->
    is_membership_of league user m1 -> is_membership_of league user m2 -> i = j.

(** An event with a stage, all of whose stages start no later than they
    end. *)
Definition staged (db : DB) (ev : Event.t) : Prop :=
  Event.stages db ev <> [] /\
  Forall (fun s => Stage.start_date s <= Stage.end_date s) (Event.stages db ev).

(** Users 7 and 8 enrolled in event 1, with the matches of [scenario_db];
    event 2 of the same league has no stage yet. *)
Definition scenario_session : Session :=
  mkSession scenario_db
            [january_event]
            [Participant.mk 10 7 1; Participant.mk 20 8 1; Participant.mk 30 9 1].

Definition unstaged_session : Session :=
  mkSession scenario_db [january_event; Event.mk 2 1] [].

Definition league_one : League.t := League.mk 1 7 738000.

Definition carol : User.t := User.mk 9 false 738002.

(** The session after the membership at row [i] is replaced by [m]. *)
Definition with_row (i : nat) (m : Membership.t) (db : DB) : DB :=
  set_membership_table (<[i := m]> (membership_table db)) db.

(** * Match resolution *)

Section MatchResolution.
Variables (now : datetime) (m : Match.t) (a b d : Z).

Let m' := Match.add_results now m a b d.

Lemma add_results_participants :
  Match.p1_id m' = Match.p1_id m /\ Match.p2_id m' = Match.p2_id m.
Proof.
  subst m'. unfold Match.add_results.
  destruct (2 <=? a), (2 <=? b); split; reflexivity.
Qed.

Lemma add_results_counts :
  Match.p1_wins m' = Some a /\ Match.p2_wins m' = Some b /\
  Match.draws m' = Some d /\ Match.timestamp m' = Some now.
Proof.
  subst m'. unfold Match.add_results.
  destruct (2 <=? a), (2 <=? b); repeat split; reflexivity.
Qed.

(** The two tests are independent statements, so the second assignment,
    when it runs, is the one that stays. *)
Lemma add_results_winner :
  Match.winner m' =
    if 2 <=? b then Match.participant2 m
    else if 2 <=? a then Match.participant1 m
    else Match.winner m.
Proof.
  subst m'. unfold Match.add_results.
  destruct (2 <=? a), (2 <=? b); reflexivity.
Qed.

Lemma add_results_loser :
  Match.loser m' =
    if 2 <=? b then Match.participant1 m
    else if 2 <=? a then Match.participant2 m
    else Match.loser m.
Proof.
  subst m'. unfold Match.add_results.
  destruct (2 <=? a), (2 <=? b); reflexivity.
Qed.
End MatchResolution.

Lemma replay_resolved_stays calls : forall m,
  Match.winner m <> None -> Match.winner (replay calls m) <> None.
Proof.
  induction calls as [|c calls IH]; intros m Hm; simpl; [exact Hm|].
  apply IH. unfold apply_call. rewrite add_results_winner.
  destruct (2 <=? arg_p2_wins c); [discriminate|].
  destruct (2 <=? arg_p1_wins c); [discriminate|exact Hm].
Qed.

Lemma replay_winner_iff calls : forall m,
  Match.winner m = None ->
  Match.winner (replay calls m) <> None <-> Exists decisive calls.
Proof.
  induction calls as [|c calls IH]; intros m Hm; simpl.
  - split; [congruence | intros H; inversion H].
  - rewrite Exists_cons.
    destruct (Z.leb_spec 2 (arg_p2_wins c)) as [Hb|Hb];
      [|destruct (Z.leb_spec 2 (arg_p1_wins c)) as [Ha|Ha]].
    + split; [intros _; left; right; exact Hb|intros _].
      apply replay_resolved_stays. unfold apply_call.
      rewrite add_results_winner.
      apply Z.leb_le in Hb. rewrite Hb. discriminate.
    + split; [intros _; left; left; exact Ha|intros _].
      apply replay_resolved_stays. unfold apply_call.
      rewrite add_results_winner.
      apply Z.leb_gt in Hb. apply Z.leb_le in Ha. rewrite Hb, Ha. discriminate.
    + rewrite IH.
      * split; [tauto|]. intros [[?|?]|?]; [lia|lia|assumption].
      * unfold apply_call. rewrite add_results_winner.
        apply Z.leb_gt in Hb, Ha. rewrite Hb, Ha. exact Hm.
Qed.

(** C1, as the code has it: when both [p1_wins >= 2] and [p2_wins >= 2],
    both assignments run and the later one stays, so after the call the
    winner is participant2 and the loser is participant1. *)
Theorem add_results_both_thresholds now m a b d :
  2 <= a -> 2 <= b ->
  let m' := Match.add_results now m a b d in
  Match.winner m' = Match.participant2 m' /\
  Match.loser m' = Match.participant1 m' /\
  Match.participant1 m' = Match.participant1 m /\
  Match.participant2 m' = Match.participant2 m.
Proof.
  intros Ha Hb m'. subst m'.
  rewrite add_results_winner, add_results_loser.
  apply Z.leb_le in Hb. rewrite Hb.
  unfold Match.participant1, Match.participant2.
  destruct (add_results_participants now m a b d) as [-> ->].
  repeat split; reflexivity.
Qed.

Lemma add_results_both_thresholds_witness :
  let m := Match.__init__ 1 1 10 20 in
  let m' := Match.add_results 5 m 2 2 0 in
  Match.winner m' = Some 20 /\ Match.loser m' = Some 10.
Proof.
  destruct (add_results_both_thresholds 5 (Match.__init__ 1 1 10 20) 2 2 0)
    as (Hw & Hl & _); [lia | lia |].
  split; [exact Hw | exact Hl].
Defined.

(** C1 as stated fails: a fresh match between participants 10 and 20 that
    receives the scoreline 2-2 ends with participant 20, not participant 10,
    as its winner. *)
Lemma add_results_both_thresholds_p1_not_preferred :
  let m := Match.__init__ 1 1 10 20 in
  let m' := Match.add_results 5 m 2 2 0 in
  2 <= 2 /\ 2 <= 2 /\
  ~ (Match.winner m' = Match.participant1 m' /\
     Match.loser m' = Match.participant2 m').
Proof.
  cbv zeta. split; [lia|]. split; [lia|].
  intros [Hw _]. vm_compute in Hw. discriminate Hw.
Qed.

(** C2, as the code has it: a call with [p1_wins < 2] and [p2_wins < 2]
    stores the three counts and the time of the call and leaves winner and
    loser exactly as they were before the call, so a match that was
    unplayed stays unplayed (and one that was resolved keeps its winner
    and loser); and after any sequence of calls on a match that started
    unplayed, the winner is set exactly when some call of the sequence
    reached a threshold. *)
Theorem add_results_below_threshold now m a b d calls :
  let m' := Match.add_results now m a b d in
  (a < 2 -> b < 2 ->
   Match.p1_wins m' = Some a /\ Match.p2_wins m' = Some b /\
   Match.draws m' = Some d /\ Match.timestamp m' = Some now /\
   Match.winner m' = Match.winner m /\ Match.loser m' = Match.loser m) /\
  (a < 2 -> b < 2 -> Match.winner m = None -> Match.loser m = None ->
   Match.winner m' = None /\ Match.loser m' = None) /\
  (Match.winner m = None ->
   (Match.winner (replay calls m) <> None <-> Exists decisive calls)).
Proof.
  intros m'. subst m'.
  assert (Hkeep : a < 2 -> b < 2 ->
    Match.winner (Match.add_results now m a b d) = Match.winner m /\
    Match.loser (Match.add_results now m a b d) = Match.loser m).
  { intros Ha Hb. apply Z.leb_gt in Ha, Hb.
    rewrite add_results_winner, add_results_loser, Ha, Hb.
    split; reflexivity. }
  split; [|split].
  - intros Ha Hb. destruct (Hkeep Ha Hb) as [Hw Hl].
    destruct (add_results_counts now m a b d) as (H1 & H2 & H3 & H4).
    repeat (split; [assumption|]). assumption.
  - intros Ha Hb Hw Hl. destruct (Hkeep Ha Hb) as [-> ->]. split; assumption.
  - apply replay_winner_iff.
Qed.

Lemma add_results_below_threshold_witness :
  let resolved := Match.add_results 1 (Match.__init__ 1 1 10 20) 2 0 0 in
  let fresh := Match.__init__ 2 1 10 30 in
  Match.p1_wins (Match.add_results 2 resolved 1 1 0) = Some 1 /\
  Match.p2_wins (Match.add_results 2 resolved 1 1 0) = Some 1 /\
  Match.draws (Match.add_results 2 resolved 1 1 0) = Some 0 /\
  Match.timestamp (Match.add_results 2 resolved 1 1 0) = Some 2 /\
  Match.winner (Match.add_results 2 resolved 1 1 0) = Some 10 /\
  Match.loser (Match.add_results 2 resolved 1 1 0) = Some 20 /\
  Match.winner (Match.add_results 2 fresh 1 1 0) = None /\
  Match.loser (Match.add_results 2 fresh 1 1 0) = None /\
  Match.winner (replay [mkCall 3 1 1 0; mkCall 4 0 2 1; mkCall 5 1 0 0] fresh)
    <> None.
Proof.
  cbv zeta.
  pose proof (add_results_below_threshold 2
    (Match.add_results 1 (Match.__init__ 1 1 10 20) 2 0 0) 1 1 0 [])
    as (Hres & _ & _).
  pose proof (add_results_below_threshold 2 (Match.__init__ 2 1 10 30) 1 1 0
    [mkCall 3 1 1 0; mkCall 4 0 2 1; mkCall 5 1 0 0])
    as (_ & Hfresh & Hseq).
  destruct Hres as (H1 & H2 & H3 & H4 & Hw & Hl); [lia | lia |].
  destruct Hfresh as [Hw' Hl']; [lia | lia | reflexivity | reflexivity |].
  split; [exact H1|]. split; [exact H2|]. split; [exact H3|]. split; [exact H4|].
  split; [rewrite Hw; reflexivity|].
  split; [rewrite Hl; reflexivity|].
  split; [exact Hw'|]. split; [exact Hl'|].
  apply Hseq; [reflexivity|].
  apply Exists_cons_tl, Exists_cons_hd. right. simpl. lia.
Defined.

(** C2 as stated fails: a match resolved by 2-0 and then given the
    scoreline 1-1-0 keeps its winner and loser, although neither stored
    count reaches 2. *)
Lemma add_results_no_revert :
  let resolved := Match.add_results 1 (Match.__init__ 1 1 10 20) 2 0 0 in
  let m' := Match.add_results 2 resolved 1 1 0 in
  1 < 2 /\ 1 < 2 /\
  Match.p1_wins m' = Some 1 /\ Match.p2_wins m' = Some 1 /\
  Match.winner m' = Some 10 /\ Match.loser m' = Some 20 /\
  ~ (Match.winner m' = None /\ Match.loser m' = None).
Proof.
  cbv zeta. repeat split; try lia.
  intros [Hw _]. vm_compute in Hw. discriminate Hw.
Qed.

(** * Event dates *)

#[global] Instance start_asc_trans : Transitive Event.start_asc.
Proof. intros x y z; unfold Event.start_asc; lia. Qed.
#[global] Instance start_asc_total : Total Event.start_asc.
Proof. intros x y; unfold Event.start_asc; lia. Qed.
#[global] Instance start_desc_trans : Transitive Event.start_desc.
Proof. intros x y z; unfold Event.start_desc; lia. Qed.
#[global] Instance start_desc_total : Total Event.start_desc.
Proof. intros x y; unfold Event.start_desc; lia. Qed.

Section OrderBy.
Context {A : Type} (R : relation A) `{!RelDecision R, !Transitive R, !Total R}.

Lemma first_order_by_nil : first (order_by R []) = None.
Proof. reflexivity. Qed.

(** The first row of a sorted query is a row of the query and precedes
    every row of it. *)
Lemma first_order_by (rows : list A) :
  rows <> [] ->
  exists r, first (order_by R rows) = Some r /\ r ∈ rows /\ Forall (R r) rows.
Proof.
  intros Hne. unfold order_by, first.
  pose proof (merge_sort_Permutation R rows) as Hperm.
  pose proof (StronglySorted_merge_sort R rows) as Hsorted.
  destruct (merge_sort R rows) as [|r sorted].
  - apply Permutation_nil in Hperm. contradiction.
  - exists r. split; [reflexivity|]. split.
    + rewrite <- Hperm. apply list_elem_of_here.
    + rewrite <- Hperm. apply StronglySorted_inv in Hsorted as [_ Hall].
      constructor; [|exact Hall].
      destruct (total R r r); assumption.
Qed.
End OrderBy.

Lemma foldr_min_spec ds : forall d0,
  foldr Z.min d0 ds ∈ d0 :: ds /\ Forall (Z.le (foldr Z.min d0 ds)) (d0 :: ds).
Proof.
  induction ds as [|d ds IH]; intros d0; simpl.
  - split; [apply list_elem_of_here|]. repeat constructor. lia.
  - destruct (IH d0) as [Hin Hle]. split.
    + destruct (Z.min_spec d (foldr Z.min d0 ds)) as [[_ ->]|[_ ->]].
      * apply list_elem_of_further, list_elem_of_here.
      * apply elem_of_cons in Hin as [->|Hin];
          [apply list_elem_of_here|do 2 apply list_elem_of_further; exact Hin].
    + apply Forall_cons in Hle as [H0 Hds].
      constructor; [lia|]. constructor; [lia|].
      eapply Forall_impl; [exact Hds|]. simpl. intros; lia.
Qed.

Lemma foldr_max_spec ds : forall d0,
  foldr Z.max d0 ds ∈ d0 :: ds /\ Forall (fun d => d <= foldr Z.max d0 ds) (d0 :: ds).
Proof.
  induction ds as [|d ds IH]; intros d0; simpl.
  - split; [apply list_elem_of_here|]. repeat constructor. lia.
  - destruct (IH d0) as [Hin Hle]. split.
    + destruct (Z.max_spec d (foldr Z.max d0 ds)) as [[_ ->]|[_ ->]].
      * apply elem_of_cons in Hin as [->|Hin];
          [apply list_elem_of_here|do 2 apply list_elem_of_further; exact Hin].
      * apply list_elem_of_further, list_elem_of_here.
    + apply Forall_cons in Hle as [H0 Hds].
      constructor; [lia|]. constructor; [lia|].
      eapply Forall_impl; [exact Hds|]. simpl. intros; lia.
Qed.

(** A lower bound that is attained is the minimum. *)
Lemma minimum_unique ds d :
  d ∈ ds -> Forall (Z.le d) ds -> minimum ds = Some d.
Proof.
  intros Hin Hle. destruct ds as [|d0 ds]; [inversion Hin|]. simpl. f_equal.
  destruct (foldr_min_spec ds d0) as [Hin' Hle'].
  rewrite Forall_forall in Hle, Hle'.
  specialize (Hle _ Hin'). specialize (Hle' _ Hin). lia.
Qed.

Lemma maximum_unique ds d :
  d ∈ ds -> Forall (fun x => x <= d) ds -> maximum ds = Some d.
Proof.
  intros Hin Hle. destruct ds as [|d0 ds]; [inversion Hin|]. simpl. f_equal.
  destruct (foldr_max_spec ds d0) as [Hin' Hle'].
  rewrite Forall_forall in Hle, Hle'.
  specialize (Hle _ Hin'). specialize (Hle' _ Hin). lia.
Qed.

Section EventDates.
Variables (db : DB) (ev : Event.t).

Let ss := Event.stages db ev.

(** The stage the ascending query returns first. *)
Lemma first_stage_spec :
  ss <> [] ->
  exists s, first (order_by Event.start_asc ss) = Some s /\ s ∈ ss /\
            Forall (fun u => Stage.start_date s <= Stage.start_date u) ss.
Proof. intros Hne. apply (first_order_by Event.start_asc ss Hne). Qed.

(** The stage the descending query returns first. *)
Lemma last_stage_spec :
  ss <> [] ->
  exists s, first (order_by Event.start_desc ss) = Some s /\ s ∈ ss /\
            Forall (fun u => Stage.start_date u <= Stage.start_date s) ss.
Proof. intros Hne. apply (first_order_by Event.start_desc ss Hne). Qed.
Lemma get_start_date_ok :
  ss <> [] ->
  exists s, s ∈ ss /\
            Forall (fun u => Stage.start_date s <= Stage.start_date u) ss /\
            Event.get_start_date db ev = Ok (Stage.start_date s).
Proof.
  intros Hne. destruct (first_stage_spec Hne) as (s & Hfirst & Hin & Hmin).
  exists s. repeat split; try assumption.
  unfold Event.get_start_date. fold ss. rewrite Hfirst. reflexivity.
Qed.

Lemma get_end_date_ok :
  ss <> [] ->
  exists s, s ∈ ss /\
            Forall (fun u => Stage.start_date u <= Stage.start_date s) ss /\
            Event.get_end_date db ev = Ok (Stage.end_date s).
Proof.
  intros Hne. destruct (last_stage_spec Hne) as (s & Hfirst & Hin & Hmax).
  exists s. repeat split; try assumption.
  unfold Event.get_end_date. fold ss. rewrite Hfirst. reflexivity.
Qed.

Lemma get_dates_empty :
  ss = [] ->
  Event.get_start_date db ev = Raise AttributeError /\
  Event.get_end_date db ev = Raise AttributeError.
Proof.
  intros Hnil. unfold Event.get_start_date, Event.get_end_date.
  fold ss. rewrite Hnil. split; reflexivity.
Qed.

(** The three classification methods run the same two queries as the
    getters. *)
Lemma is_past_unfold today :
  Event.is_past today db ev =
    (let* e := Event.get_end_date db ev in Ok (e <=? today))%py.
Proof. reflexivity. Qed.

Lemma is_upcoming_unfold today :
  Event.is_upcoming today db ev =
    (let* s := Event.get_start_date db ev in Ok (today <=? s))%py.
Proof. reflexivity. Qed.

Lemma in_progress_unfold today :
  Event.in_progress today db ev =
    (let* s := Event.get_start_date db ev in
     if s <=? today
     then let* e := Event.get_end_date db ev in Ok (today <=? e)
     else Ok false)%py.
Proof. reflexivity. Qed.

(** With well-formed stages the event starts no later than it ends. *)
Lemma start_le_end :
  ss <> [] ->
  Forall (fun s => Stage.start_date s <= Stage.end_date s) ss ->
  exists S E, Event.get_start_date db ev = Ok S /\
              Event.get_end_date db ev = Ok E /\ S <= E.
Proof.
  intros Hne Hwf.
  destruct (get_start_date_ok Hne) as (s1 & _ & Hmin & HS).
  destruct (get_end_date_ok Hne) as (s2 & Hin2 & _ & HE).
  exists (Stage.start_date s1), (Stage.end_date s2).
  split; [exact HS|]. split; [exact HE|].
  rewrite Forall_forall in Hmin, Hwf.
  specialize (Hmin _ Hin2). specialize (Hwf _ Hin2). lia.
Qed.
End EventDates.

(** C3, as the code has it: for an event with at least one stage,
    [get_start_date] returns the minimum start date of its stages, and
    [get_end_date] returns the end date of a stage whose start date is the
    latest; that is the maximum end date whenever the stages' end dates
    come in the order of their start dates. *)
Theorem event_date_range db ev :
  Event.stages db ev <> [] ->
  (exists d, Event.get_start_date db ev = Ok d /\
             effective_start_date db ev = Some d) /\
  (exists s, s ∈ Event.stages db ev /\
             Forall (fun u => Stage.start_date u <= Stage.start_date s)
                    (Event.stages db ev) /\
             Event.get_end_date db ev = Ok (Stage.end_date s)) /\
  (ends_follow_starts (Event.stages db ev) ->
   exists d, Event.get_end_date db ev = Ok d /\
             effective_end_date db ev = Some d).
Proof.
  intros Hne.
  destruct (get_start_date_ok db ev Hne) as (s1 & Hin1 & Hmin & HS).
  destruct (get_end_date_ok db ev Hne) as (s2 & Hin2 & Hmax & HE).
  split; [|split].
  - exists (Stage.start_date s1). split; [exact HS|].
    apply minimum_unique.
    + apply list_elem_of_fmap_2, Hin1.
    + apply Forall_fmap. exact Hmin.
  - exists s2. auto.
  - intros Hmono. exists (Stage.end_date s2). split; [exact HE|].
    apply maximum_unique.
    + apply list_elem_of_fmap_2, Hin2.
    + apply Forall_fmap, Forall_forall. intros u Hu. simpl.
      rewrite Forall_forall in Hmax. apply Hmono; auto.
Qed.

Lemma event_date_range_witness :
  Event.get_start_date overlapping_db january_event = Ok 738886 /\
  effective_start_date overlapping_db january_event = Some 738886 /\
  (exists s, s ∈ Event.stages overlapping_db january_event /\
             Stage.start_date s = 738893 /\
             Event.get_end_date overlapping_db january_event = Ok (Stage.end_date s)) /\
  Event.get_end_date overlapping_db january_event = Ok 738905 /\
  effective_end_date overlapping_db january_event = Some 738905.
Proof.
  destruct (event_date_range overlapping_db january_event)
    as ((d & Hd & Hmin) & (s & Hs & Hlast & Hend) & Hmax); [discriminate|].
  destruct Hmax as (e & He & Hmax).
  { intros s1 s2 H1 H2.
    change (Event.stages overlapping_db january_event)
      with [Stage.mk 2 1 738890 738900; Stage.mk 1 1 738886 738895;
            Stage.mk 3 1 738893 738905] in H1, H2.
    repeat (apply elem_of_cons in H1 as [->|H1]);
      repeat (apply elem_of_cons in H2 as [->|H2]);
      try (inversion H1; fail); try (inversion H2; fail); simpl; lia. }
  assert (Hstart : Stage.start_date s = 738893).
  { rewrite Forall_forall in Hlast.
    assert (H3 : Stage.mk 3 1 738893 738905 ∈ Event.stages overlapping_db january_event)
      by (do 2 apply list_elem_of_further; apply list_elem_of_here).
    specialize (Hlast _ H3). simpl in Hlast.
    change (Event.stages overlapping_db january_event)
      with [Stage.mk 2 1 738890 738900; Stage.mk 1 1 738886 738895;
            Stage.mk 3 1 738893 738905] in Hs.
    repeat (apply elem_of_cons in Hs as [->|Hs]);
      try (inversion Hs; fail); simpl in *; lia. }
  vm_compute in Hmin, Hmax.
  injection Hmin as <-. injection Hmax as <-.
  split; [exact Hd|]. split; [reflexivity|].
  split; [exists s; auto|]. split; [exact He|reflexivity].
Defined.

(** C3 as stated fails: with nested stages [get_end_date] is the end of
    the stage that starts last, not the latest end. *)
Lemma get_end_date_not_maximum :
  Event.stages nested_db january_event <> [] /\
  Event.get_end_date nested_db january_event = Ok 738895 /\
  effective_end_date nested_db january_event = Some 738900 /\
  ~ (exists d, Event.get_end_date nested_db january_event = Ok d /\
               effective_end_date nested_db january_event = Some d).
Proof.
  split; [discriminate|]. split; [reflexivity|]. split; [reflexivity|].
  intros (d & Hd & Hmax). vm_compute in Hd, Hmax. congruence.
Qed.

(** C5, as the code has it: for an event without stages [first()] is
    [None] and both getters end in the [AttributeError] of reading an
    attribute of [None]. *)
Theorem get_dates_no_stages db ev :
  Event.stages db ev = [] ->
  Event.get_start_date db ev = Raise AttributeError /\
  Event.get_end_date db ev = Raise AttributeError.
Proof. apply get_dates_empty. Qed.

Lemma get_dates_no_stages_witness :
  Event.get_start_date empty_db january_event = Raise AttributeError /\
  Event.get_end_date empty_db january_event = Raise AttributeError.
Proof. apply (get_dates_no_stages empty_db january_event). reflexivity. Defined.

(** C5 as stated fails: on an event without stages the getters do not end
    in [EmptyCollectionError]. *)
Lemma get_dates_no_stages_not_empty_collection :
  Event.stages empty_db january_event = [] /\
  Event.get_start_date empty_db january_event <> Raise EmptyCollectionError /\
  Event.get_end_date empty_db january_event <> Raise EmptyCollectionError.
Proof. split; [reflexivity|]. split; discriminate. Qed.

(** The two dates the classifications compare today with: the event's
    start is the minimum start date of its stages, its end is the end date
    of a stage that starts last, which is the maximum end date when the
    end dates follow the start dates. *)
Lemma event_boundaries db ev :
  Event.stages db ev <> [] ->
  exists S E,
    Event.get_start_date db ev = Ok S /\
    Event.get_end_date db ev = Ok E /\
    effective_start_date db ev = Some S /\
    (exists s, s ∈ Event.stages db ev /\
               Forall (fun u => Stage.start_date u <= Stage.start_date s)
                      (Event.stages db ev) /\
               E = Stage.end_date s) /\
    (ends_follow_starts (Event.stages db ev) -> effective_end_date db ev = Some E).
Proof.
  intros Hne.
  destruct (get_start_date_ok db ev Hne) as (s1 & Hin1 & Hmin & HS).
  destruct (get_end_date_ok db ev Hne) as (s2 & Hin2 & Hmax & HE).
  exists (Stage.start_date s1), (Stage.end_date s2).
  split; [exact HS|]. split; [exact HE|]. split; [|split].
  - apply minimum_unique.
    + apply list_elem_of_fmap_2, Hin1.
    + apply Forall_fmap. exact Hmin.
  - exists s2. auto.
  - intros Hmono. apply maximum_unique.
    + apply list_elem_of_fmap_2, Hin2.
    + apply Forall_fmap, Forall_forall. intros u Hu. simpl.
      rewrite Forall_forall in Hmax. apply Hmono; auto.
Qed.

(** C8, as the code has it: for an event with at least one stage, all
    stages with [start_date <= end_date], the three classifications return
    and compare today with the dates the getters return: the minimum start
    date, and the end date of a stage that starts last (the maximum end
    date when the end dates follow the start dates). When today is neither
    of these two dates exactly one classification is true; when today is
    the date [get_end_date] returns, [in_progress] and [is_past] are both
    true. *)
Theorem event_classification db ev today :
  Event.stages db ev <> [] ->
  Forall (fun s => Stage.start_date s <= Stage.end_date s) (Event.stages db ev) ->
  exists S E past upcoming progress,
    Event.get_start_date db ev = Ok S /\
    Event.get_end_date db ev = Ok E /\
    effective_start_date db ev = Some S /\
    (exists s, s ∈ Event.stages db ev /\
               Forall (fun u => Stage.start_date u <= Stage.start_date s)
                      (Event.stages db ev) /\
               E = Stage.end_date s) /\
    (ends_follow_starts (Event.stages db ev) -> effective_end_date db ev = Some E) /\
    Event.is_past today db ev = Ok past /\
    Event.is_upcoming today db ev = Ok upcoming /\
    Event.in_progress today db ev = Ok progress /\
    (today <> S -> today <> E -> exactly_one past upcoming progress) /\
    (today = E -> progress = true /\ past = true).
Proof.
  intros Hne Hwf.
  destruct (event_boundaries db ev Hne) as (S & E & HS & HE & Hmin & Hlast & Hmax).
  destruct (start_le_end db ev Hne Hwf) as (S' & E' & HS' & HE' & Hle).
  rewrite HS in HS'. rewrite HE in HE'. injection HS' as <-. injection HE' as <-.
  exists S, E, (E <=? today), (today <=? S), ((S <=? today) && (today <=? E))%bool.
  split; [exact HS|]. split; [exact HE|].
  split; [exact Hmin|]. split; [exact Hlast|]. split; [exact Hmax|].
  split; [rewrite is_past_unfold, HE; reflexivity|].
  split; [rewrite is_upcoming_unfold, HS; reflexivity|].
  split.
  { rewrite in_progress_unfold, HS. simpl. rewrite HE. simpl.
    destruct (S <=? today); reflexivity. }
  unfold exactly_one. split.
  - intros HnS HnE.
    destruct (Z.leb_spec E today), (Z.leb_spec today S), (Z.leb_spec S today),
      (Z.leb_spec today E); simpl; try lia; auto.
  - intros ->. rewrite Z.leb_refl.
    apply Z.leb_le in Hle. rewrite Hle. auto.
Qed.

Lemma event_classification_witness :
  Event.get_start_date overlapping_db january_event = Ok 738886 /\
  Event.get_end_date overlapping_db january_event = Ok 738905 /\
  effective_end_date overlapping_db january_event = Some 738905 /\
  (exists past upcoming progress,
     Event.is_past 738897 overlapping_db january_event = Ok past /\
     Event.is_upcoming 738897 overlapping_db january_event = Ok upcoming /\
     Event.in_progress 738897 overlapping_db january_event = Ok progress /\
     exactly_one past upcoming progress) /\
  Event.is_past 738905 overlapping_db january_event = Ok true /\
  Event.in_progress 738905 overlapping_db january_event = Ok true.
Proof.
  assert (Hne : Event.stages overlapping_db january_event <> []) by discriminate.
  assert (Hwf : Forall (fun s => Stage.start_date s <= Stage.end_date s)
                       (Event.stages overlapping_db january_event)).
  { repeat constructor; simpl; lia. }
  assert (Hmono : ends_follow_starts (Event.stages overlapping_db january_event)).
  { intros s1 s2 H1 H2.
    change (Event.stages overlapping_db january_event)
      with [Stage.mk 2 1 738890 738900; Stage.mk 1 1 738886 738895;
            Stage.mk 3 1 738893 738905] in H1, H2.
    repeat (apply elem_of_cons in H1 as [->|H1]);
      repeat (apply elem_of_cons in H2 as [->|H2]);
      try (inversion H1; fail); try (inversion H2; fail); simpl; lia. }
  destruct (event_classification overlapping_db january_event 738897 Hne Hwf)
    as (S & E & past & upcoming & progress
        & HS & HE & _ & _ & Hmax & Hp & Hu & Hi & Hone & _).
  destruct (event_classification overlapping_db january_event 738905 Hne Hwf)
    as (S' & E' & past' & upcoming' & progress'
        & _ & HE' & _ & _ & _ & Hp' & _ & Hi' & _ & Hboth).
  specialize (Hmax Hmono).
  vm_compute in HS, HE, HE'.
  injection HS as <-. injection HE as <-. injection HE' as <-.
  destruct Hboth as [-> ->]; [reflexivity|].
  split; [reflexivity|]. split; [reflexivity|]. split; [exact Hmax|].
  split; [|split; assumption].
  exists past, upcoming, progress.
  split; [exact Hp|]. split; [exact Hu|]. split; [exact Hi|].
  apply Hone; lia.
Defined.

(** C8 as stated fails: an event with a stage from day 738886 to 738900
    and a stage inside it from 738890 to 738895 runs from 738886 to 738900.
    On day 738895, which is neither of these, it is both past and in
    progress; on day 738900, its last day, it is past but not in
    progress. *)
Lemma classification_with_nested_stages :
  Event.stages nested_db january_event <> [] /\
  Forall (fun s => Stage.start_date s <= Stage.end_date s)
         (Event.stages nested_db january_event) /\
  effective_start_date nested_db january_event = Some 738886 /\
  effective_end_date nested_db january_event = Some 738900 /\
  Event.is_past 738895 nested_db january_event = Ok true /\
  Event.is_upcoming 738895 nested_db january_event = Ok false /\
  Event.in_progress 738895 nested_db january_event = Ok true /\
  ~ exactly_one true false true /\
  Event.is_past 738900 nested_db january_event = Ok true /\
  Event.in_progress 738900 nested_db january_event = Ok false.
Proof.
  split; [discriminate|].
  split; [repeat constructor; simpl; lia|].
  repeat (split; [reflexivity|]).
  split; [|split; reflexivity].
  unfold exactly_one. intros [H|[H|H]]; discriminate H.
Qed.

(** * Memberships and roles *)

Section Roles.
Variables (db : DB) (league : League.t) (user : User.t).


(** Replacing the found row by one for the same user and league leaves it
    the row the query finds. *)
Lemma find_membership_insert i m mo ow :
  League.find_membership db league user = Some (i, m) ->
  League.find_membership
    (set_membership_table (<[i := with_roles mo ow m]> (membership_table db)) db)
    league user = Some (i, with_roles mo ow m).
Proof.
  unfold League.find_membership. simpl. intros Hfind.
  apply list_find_Some in Hfind as (Hlook & Hm & Hleast).
  apply list_find_insert_Some. right; left.
  split; [reflexivity|]. split; [reflexivity|].
  split; [eapply lookup_lt_Some; exact Hlook|].
  split; [exact Hm|exact Hleast].
Qed.

Lemma add_moderator_found i m :
  League.find_membership db league user = Some (i, m) ->
  League.add_moderator db league user =
    Ok (set_membership_table (<[i := with_roles true false m]> (membership_table db)) db).
Proof. unfold League.add_moderator. intros ->. reflexivity. Qed.

Lemma add_owner_found i m :
  League.find_membership db league user = Some (i, m) ->
  League.add_owner db league user =
    Ok (set_membership_table (<[i := with_roles false true m]> (membership_table db)) db).
Proof. unfold League.add_owner. intros ->. reflexivity. Qed.

End Roles.



(** C6, as the code has it: [add_member] never fails; it always appends a
    membership for the user and the league with moderator false and owner
    false, also when the user already holds one there. *)
Theorem add_member_always_appends db league user :
  exists membership,
    League.add_member db league user =
      Ok (set_membership_table (membership_table db ++ [membership]) db) /\
    is_membership_of league user membership /\
    Membership.moderator membership = false /\
    Membership.owner membership = false.
Proof.
  exists (League.new_membership db user league false false).
  repeat split.
Qed.

(** The methods that write memberships keep the two roles apart. *)
Lemma add_member_one_role db league user db' :
  League.add_member db league user = Ok db' ->
  Forall one_role (membership_table db) -> Forall one_role (membership_table db').
Proof.
  unfold League.add_member. intros [= <-] Hall. simpl.
  apply Forall_app. split; [exact Hall|].
  apply Forall_singleton. intros [Hmo _]. discriminate Hmo.
Qed.

(** C6 as stated fails: adding user 7 to league 3 a second time succeeds
    and leaves two memberships of that user in that league. *)
Lemma add_member_permits_duplicates :
  (exists m, m ∈ membership_table club_db /\ is_membership_of club alice m) /\
  League.add_member club_db club alice <> Raise DuplicateMembershipError /\
  exists db',
    League.add_member club_db club alice = Ok db' /\
    filter (is_membership_of club alice) (membership_table db') =
      [Membership.mk 1 7 3 false true; Membership.mk 3 7 3 false false].
Proof.
  split.
  { exists (Membership.mk 1 7 3 false true).
    split; [apply list_elem_of_here | split; reflexivity]. }
  split; [discriminate|].
  eexists. split; [reflexivity|]. vm_compute. reflexivity.
Qed.

(** * Standings *)

Section Counting.
Context {A : Type} (P Q R : A -> Prop).
Context `{!forall x, Decision (P x), !forall x, Decision (Q x), !forall x, Decision (R x)}.

Lemma filter_length_le (rows : list A) :
  Forall (fun x => P x -> R x) rows ->
  (length (filter P rows) <= length (filter R rows))%nat.
Proof.
  induction 1 as [|x rows Hx _ IH]; [reflexivity|].
  rewrite !filter_cons.
  destruct (decide (P x)) as [HP|HP], (decide (R x)) as [HR|HR]; simpl;
    try lia.
  contradiction (HR (Hx HP)).
Qed.

Lemma filter_length_sum_le (rows : list A) :
  Forall (fun x => (P x -> R x) /\ (Q x -> R x) /\ ~ (P x /\ Q x)) rows ->
  (length (filter P rows) + length (filter Q rows) <= length (filter R rows))%nat.
Proof.
  induction 1 as [|x rows (HPR & HQR & HPQ) _ IH]; [reflexivity|].
  rewrite !filter_cons.
  destruct (decide (P x)) as [HP|HP], (decide (Q x)) as [HQ|HQ],
    (decide (R x)) as [HR|HR]; simpl; try lia; tauto.
Qed.
End Counting.

(** [add_results] keeps the outcome of a match between two different
    participants well formed. *)
Lemma add_results_outcome_wf now m a b d :
  Match.p1_id m <> Match.p2_id m ->
  outcome_wf m -> outcome_wf (Match.add_results now m a b d).
Proof.
  intros Hne (Hw & Hl & Hwl).
  unfold outcome_wf, winner_in_match, loser_in_match, winner_is_not_loser.
  destruct (add_results_participants now m a b d) as [-> ->].
  fold (Match.winner (Match.add_results now m a b d)).
  fold (Match.loser (Match.add_results now m a b d)).
  rewrite add_results_winner, add_results_loser.
  unfold Match.participant1, Match.participant2, Match.winner, Match.loser.
  destruct (2 <=? b); [|destruct (2 <=? a)].
  - repeat split; intros; simplify_eq; auto.
  - repeat split; intros; simplify_eq; auto.
  - auto.
Qed.

Lemma init_outcome_wf id stage p1 p2 : outcome_wf (Match.__init__ id stage p1 p2).
Proof. repeat split; intros ? **; discriminate. Qed.

(** Hence every match that started fresh between two different
    participants has a well-formed outcome after any sequence of result
    submissions. *)
Lemma replay_outcome_wf calls : forall m,
  Match.p1_id m <> Match.p2_id m -> outcome_wf m -> outcome_wf (replay calls m).
Proof.
  induction calls as [|c calls IH]; intros m Hne Hwf; simpl; [exact Hwf|].
  apply IH.
  - unfold apply_call.
    destruct (add_results_participants (at_time c) m (arg_p1_wins c)
                (arg_p2_wins c) (arg_draws c)) as [-> ->].
    exact Hne.
  - apply add_results_outcome_wf; assumption.
Qed.

(** C7: when every match's winner and loser, where set, are two different
    participants of that match, a participant's won and lost counts add up
    to at most the participant's match count. *)
Theorem won_plus_lost_le_matches db p :
  Forall outcome_wf (match_table db) ->
  (Participant.get_matches_won_count db p + Participant.get_matches_lost_count db p
   <= Participant.get_matches_count db p)%nat.
Proof.
  intros Hwf.
  unfold Participant.get_matches_won_count, Participant.get_matches_lost_count,
    Participant.get_matches_count.
  apply filter_length_sum_le.
  eapply Forall_impl; [exact Hwf|]. simpl.
  intros m (Hw & Hl & Hwl). split; [|split].
  - intros Hwin. destruct (Hw _ Hwin); auto.
  - intros Hlose. destruct (Hl _ Hlose); auto.
  - intros [Hwin Hlose]. exact (Hwl _ _ Hwin Hlose eq_refl).
Qed.

(** Decides [outcome_wf] and its parts on the rows of a concrete table. *)
Ltac check_outcomes :=
  repeat (apply Forall_cons; split); try apply Forall_nil;
  vm_compute; repeat (split; [|]); intros; simplify_eq; auto.

Lemma won_plus_lost_le_matches_witness :
  (Participant.get_matches_won_count scenario_db p10
   + Participant.get_matches_lost_count scenario_db p10 <= 2)%nat.
Proof.
  change 2%nat with (Participant.get_matches_count scenario_db p10).
  apply (won_plus_lost_le_matches scenario_db p10).
  unfold scenario_db, match_table. check_outcomes.
Defined.

(** C4, as the code has it: with no match the division ends in
    [ZeroDivisionError]; with at least one match the method returns the
    quotient of the won count by the match count, which lies in [0, 1]
    when every winner that is set is a participant of its match. *)
Theorem match_win_percentage_spec db p :
  let won := Participant.get_matches_won_count db p in
  let total := Participant.get_matches_count db p in
  (total = 0%nat ->
   Participant.match_win_percentage db p = Raise ZeroDivisionError) /\
  ((0 < total)%nat ->
   exists q, Participant.match_win_percentage db p = Ok q /\
             (q == inject_Z (Z.of_nat won) / inject_Z (Z.of_nat total))%Q /\
             (Forall winner_in_match (match_table db) -> (0 <= q <= 1)%Q)).
Proof.
  intros won total. unfold Participant.match_win_percentage.
  fold won. fold total. split.
  - intros ->. reflexivity.
  - intros Hpos. destruct total as [|n] eqn:Htotal; [lia|].
    eexists. split; [reflexivity|].
    assert (Hden : Z.pos (Pos.of_nat (S n)) = Z.of_nat (S n)).
    { rewrite <- positive_nat_Z, Nat2Pos.id by lia. reflexivity. }
    split.
    + rewrite <- Hden. unfold Qeq, Qdiv, Qmult, Qinv, inject_Z. simpl. lia.
    + intros Hwf.
      assert (Hle : (won <= S n)%nat).
      { rewrite <- Htotal. subst won total.
        unfold Participant.get_matches_won_count, Participant.get_matches_count.
        apply filter_length_le.
        eapply Forall_impl; [exact Hwf|]. simpl.
        intros m Hw Hwin. destruct (Hw _ Hwin); auto. }
      unfold Qle. cbn [Qnum Qden]. rewrite Hden. lia.
Qed.

Lemma match_win_percentage_spec_witness :
  Participant.match_win_percentage scenario_db p40 = Raise ZeroDivisionError /\
  exists q, Participant.match_win_percentage scenario_db p10 = Ok q /\
            (q == 1 # 2)%Q /\ (0 <= q <= 1)%Q.
Proof.
  destruct (match_win_percentage_spec scenario_db p40) as [Hzero _].
  destruct (match_win_percentage_spec scenario_db p10) as [_ Hpos].
  split; [apply Hzero; reflexivity|].
  destruct Hpos as (q & Hq & Heq & Hrange); [vm_compute; lia|].
  exists q. split; [exact Hq|]. split; [rewrite Heq; reflexivity|].
  apply Hrange. unfold scenario_db, match_table. check_outcomes.
Defined.

(** C4 as stated fails: for a participant without matches the method ends
    in [ZeroDivisionError], not in [NoMatchesError]. *)
Lemma match_win_percentage_not_no_matches_error :
  Participant.get_matches_count scenario_db p40 = 0%nat /\
  Participant.match_win_percentage scenario_db p40 = Raise ZeroDivisionError /\
  Participant.match_win_percentage scenario_db p40 <> Raise NoMatchesError.
Proof. split; [reflexivity|]. split; [reflexivity|discriminate]. Qed.

Example scenario_percentages :
  Participant.match_win_percentage scenario_db p10 = Ok (1 # 2) /\
  Participant.match_win_percentage scenario_db p20 = Ok (0 # 1).
Proof. split; reflexivity. Qed.

(** Why the range needs the condition on winners: a row whose winner is
    not one of its participants is counted as won but not as played. *)
Example stray_winner_exceeds_one :
  let db := mkDB [] [Match.mk 1 1 10 20 (Some 30) (Some 10) (Some 2) (Some 0) (Some 0) (Some 5);
                     Match.mk 2 1 30 20 (Some 30) (Some 20) (Some 2) (Some 0) (Some 0) (Some 6)] [] in
  Participant.match_win_percentage db (Participant.mk 30 9 1) = Ok (2 # 1).
Proof. reflexivity. Qed.

(** * The anonymous actor *)

(** C10: the anonymous actor is not an admin, is anonymous, and is a
    member of no league. *)
Theorem anonymous_user_capabilities (a : AnonymousUser.t) (db : DB) (league : League.t) :
  is_admin a = false /\ is_anonymous a = true /\ is_member db a league = false.
Proof. repeat split. Qed.

(** An authenticated user answers from its row and its memberships. *)
Example authenticated_user_capabilities :
  is_admin alice = false /\ is_anonymous alice = false /\
  is_member club_db alice club = true /\
  is_member club_db alice (League.mk 4 8 738002) = false.
Proof. repeat split. Qed.

(** * Membership views *)

Section MembershipViews.
Variables (db : DB) (league : League.t).

Lemma get_members_spec x :
  x ∈ LeagueMethods.get_members db league <->
  exists m, m ∈ membership_table db /\
            Membership.league_id m = League.id league /\ Membership.user_id m = x.
Proof.
  unfold LeagueMethods.get_members, LeagueMethods.members.
  rewrite list_elem_of_fmap. split.
  - intros (m & -> & Hm). apply list_elem_of_filter in Hm as [Hl Hin]. eauto.
  - intros (m & Hin & Hl & <-). exists m. split; [reflexivity|].
    apply list_elem_of_filter. auto.
Qed.

Lemma get_moderators_spec x :
  x ∈ LeagueMethods.get_moderators db league <->
  exists m, m ∈ membership_table db /\
            Membership.league_id m = League.id league /\ Membership.user_id m = x /\
            Membership.moderator m = true.
Proof.
  unfold LeagueMethods.get_moderators.
  rewrite list_elem_of_fmap. split.
  - intros (m & -> & Hm). apply list_elem_of_filter in Hm as [[Hl Hmo] Hin]. eauto.
  - intros (m & Hin & Hl & <- & Hmo). exists m. split; [reflexivity|].
    apply list_elem_of_filter. auto.
Qed.

Lemma get_owners_spec x :
  x ∈ LeagueMethods.get_owners db league <->
  exists m, m ∈ membership_table db /\
            Membership.league_id m = League.id league /\ Membership.user_id m = x /\
            Membership.owner m = true.
Proof.
  unfold LeagueMethods.get_owners.
  rewrite list_elem_of_fmap. split.
  - intros (m & -> & Hm). apply list_elem_of_filter in Hm as [[Hl Hmo] Hin]. eauto.
  - intros (m & Hin & Hl & <- & Hmo). exists m. split; [reflexivity|].
    apply list_elem_of_filter. auto.
Qed.

Lemma get_leagues_spec (user : User.t) :
  League.id league ∈ UserStandings.get_leagues db user <->
  exists m, m ∈ membership_table db /\ is_membership_of league user m.
Proof.
  unfold UserStandings.get_leagues, is_membership_of.
  rewrite list_elem_of_fmap. split.
  - intros (m & Hl & Hm). apply list_elem_of_filter in Hm as [Hu Hin]. eauto.
  - intros (m & Hin & Hl & Hu). exists m. split; [auto|].
    apply list_elem_of_filter. auto.
Qed.

Lemma is_member_spec (user : User.t) :
  is_member db user league = true <->
  exists m, m ∈ membership_table db /\ is_membership_of league user m.
Proof.
  simpl. unfold UserMethods.is_member.
  rewrite bool_decide_eq_true. apply get_leagues_spec.
Qed.

Lemma find_membership_None (user : User.t) :
  League.find_membership db league user = None <-> is_member db user league = false.
Proof.
  unfold League.find_membership. rewrite list_find_None, <- not_true_iff_false.
  rewrite is_member_spec, Forall_forall. unfold is_membership_of. split.
  - intros Hnone (m & Hin & Hm). exact (Hnone m Hin Hm).
  - intros Hnot m Hin Hm. apply Hnot. eauto.
Qed.
End MembershipViews.

(** X1: the two sides of a membership agree: a league is among the user's
    leagues, and the user is a member of it, exactly when the user is among
    the league's members. *)
Theorem membership_views_agree db (user : User.t) league :
  (League.id league ∈ UserStandings.get_leagues db user <->
   User.id user ∈ LeagueMethods.get_members db league) /\
  (is_member db user league = true <->
   User.id user ∈ LeagueMethods.get_members db league).
Proof.
  rewrite is_member_spec, get_leagues_spec, get_members_spec.
  unfold is_membership_of. split; split; intros (m & Hin & H); exists m; tauto.
Qed.

(** X2: moderators and owners of a league are members of it, and only the
    creator or a member can edit a league. *)
Theorem roles_are_held_by_members db league :
  (forall x, x ∈ LeagueMethods.get_moderators db league ->
             x ∈ LeagueMethods.get_members db league) /\
  (forall x, x ∈ LeagueMethods.get_owners db league ->
             x ∈ LeagueMethods.get_members db league) /\
  (forall user : User.t,
     LeagueMethods.editable_by_user db league user = true ->
     User.id user = League.creator_id league \/ is_member db user league = true).
Proof.
  split; [|split].
  - intros x. rewrite get_moderators_spec, get_members_spec.
    intros (m & ? & ? & ? & _). eauto.
  - intros x. rewrite get_owners_spec, get_members_spec.
    intros (m & ? & ? & ? & _). eauto.
  - intros user. unfold LeagueMethods.editable_by_user.
    rewrite orb_true_iff, Z.eqb_eq, bool_decide_eq_true.
    intros [Hc|Hmo]; [left; exact Hc|right].
    apply is_member_spec. apply get_moderators_spec in Hmo as (m & ? & ? & ? & _).
    exists m. split; [assumption|split; assumption].
Qed.

Lemma roles_are_held_by_members_witness :
  LeagueMethods.editable_by_user club_db club alice = true /\
  (User.id alice = League.creator_id club \/ is_member club_db alice club = true).
Proof.
  destruct (roles_are_held_by_members club_db club) as (_ & _ & Hedit).
  split; [reflexivity|]. apply Hedit. reflexivity.
Defined.

(** X3: a role change ends in [AttributeError] exactly when the user is not
    a member of the league, and succeeds otherwise. *)
Theorem role_change_fails_iff_not_member db league (user : User.t) :
  (League.add_moderator db league user = Raise AttributeError <->
   is_member db user league = false) /\
  (League.add_owner db league user = Raise AttributeError <->
   is_member db user league = false) /\
  (is_member db user league = true ->
   exists db1 db2, League.add_moderator db league user = Ok db1 /\
                   League.add_owner db league user = Ok db2).
Proof.
  rewrite <- !find_membership_None.
  unfold League.add_moderator, League.add_owner.
  destruct (League.find_membership db league user) as [[i m]|] eqn:Hfind.
  - split; [|split].
    + split; discriminate.
    + split; discriminate.
    + intros _. eauto.
  - split; [|split].
    + split; auto.
    + split; auto.
    + intros Hmem. apply not_true_iff_false in Hmem; [contradiction|].
      apply find_membership_None. exact Hfind.
Qed.

Lemma role_change_fails_iff_not_member_witness :
  League.add_moderator club_db club carol = Raise AttributeError /\
  exists db1 db2, League.add_moderator club_db club bob = Ok db1 /\
                  League.add_owner club_db club bob = Ok db2.
Proof.
  destruct (role_change_fails_iff_not_member club_db club carol) as ([_ Hfail] & _).
  destruct (role_change_fails_iff_not_member club_db club bob) as (_ & _ & Hok).
  split; [apply Hfail; reflexivity | apply Hok; reflexivity].
Defined.

(** * Membership changes seen through the views *)

Section FilterInsert.
Context {A B : Type} (P : A -> Prop) `{!forall x, Decision (P x)} (f : A -> B).

(** Replacing a row by one that the filter treats alike and that projects
    alike does not change a projected query. *)
Lemma fmap_filter_insert (rows : list A) : forall i x y,
  rows !! i = Some x -> (P x <-> P y) -> (P x -> f x = f y) ->
  f <$> filter P (<[i := y]> rows) = f <$> filter P rows.
Proof.
  induction rows as [|r rows IH]; intros [|i] x y Hlook HP Hf; simpl in *;
    try discriminate.
  - injection Hlook as <-. rewrite !filter_cons.
    destruct (decide (P y)) as [Hy|Hy], (decide (P r)) as [Hr|Hr];
      try tauto.
    rewrite !fmap_cons, (Hf Hr). reflexivity.
  - rewrite !filter_cons.
    destruct (decide (P r)); [rewrite !fmap_cons; f_equal|]; eapply IH; eauto.
Qed.
End FilterInsert.

Section RoleChangeViews.
Variables (db : DB) (league : League.t) (user : User.t).
Variables (i : nat) (m : Membership.t) (mo ow : bool).
Hypothesis Hfind : League.find_membership db league user = Some (i, m).

Let db' := with_row i (with_roles mo ow m) db.

Lemma found_row : membership_table db !! i = Some m /\ is_membership_of league user m.
Proof.
  unfold League.find_membership in Hfind.
  apply list_find_Some in Hfind as (Hlook & Hm & _). split; assumption.
Qed.

Lemma role_change_get_members l' :
  LeagueMethods.get_members db' l' = LeagueMethods.get_members db l'.
Proof.
  destruct found_row as [Hlook _].
  unfold LeagueMethods.get_members, LeagueMethods.members. subst db'. simpl.
  eapply fmap_filter_insert; [exact Hlook|reflexivity|reflexivity].
Qed.

Lemma role_change_get_leagues (u' : User.t) :
  UserStandings.get_leagues db' u' = UserStandings.get_leagues db u'.
Proof.
  destruct found_row as [Hlook _].
  unfold UserStandings.get_leagues. subst db'. simpl.
  eapply fmap_filter_insert; [exact Hlook|reflexivity|reflexivity].
Qed.

Lemma role_change_moderators :
  User.id user ∈ LeagueMethods.get_moderators db' league <->
  mo = true \/
  exists j r, j <> i /\ membership_table db !! j = Some r /\
              is_membership_of league user r /\ Membership.moderator r = true.
Proof.
  destruct found_row as [Hlook [Hl Hu]].
  rewrite get_moderators_spec. subst db'. simpl. split.
  - intros (r & Hin & Hrl & Hru & Hrm).
    apply list_elem_of_lookup in Hin as [j Hj].
    apply list_lookup_insert_Some in Hj as [(-> & <- & _)|[Hne Hj]].
    + left. exact Hrm.
    + right. exists j, r. repeat split; auto.
  - intros [->|(j & r & Hne & Hj & [Hrl Hru] & Hrm)].
    + exists (with_roles true ow m). split; [|auto].
      apply list_elem_of_lookup. exists i.
      apply list_lookup_insert_eq. eapply lookup_lt_Some; exact Hlook.
    + exists r. split; [|auto].
      apply list_elem_of_lookup. exists j.
      rewrite list_lookup_insert_ne by auto. exact Hj.
Qed.

Lemma role_change_owners :
  User.id user ∈ LeagueMethods.get_owners db' league <->
  ow = true \/
  exists j r, j <> i /\ membership_table db !! j = Some r /\
              is_membership_of league user r /\ Membership.owner r = true.
Proof.
  destruct found_row as [Hlook [Hl Hu]].
  rewrite get_owners_spec. subst db'. simpl. split.
  - intros (r & Hin & Hrl & Hru & Hrm).
    apply list_elem_of_lookup in Hin as [j Hj].
    apply list_lookup_insert_Some in Hj as [(-> & <- & _)|[Hne Hj]].
    + left. exact Hrm.
    + right. exists j, r. repeat split; auto.
  - intros [->|(j & r & Hne & Hj & [Hrl Hru] & Hrm)].
    + exists (with_roles mo true m). split; [|auto].
      apply list_elem_of_lookup. exists i.
      apply list_lookup_insert_eq. eapply lookup_lt_Some; exact Hlook.
    + exists r. split; [|auto].
      apply list_elem_of_lookup. exists j.
      rewrite list_lookup_insert_ne by auto. exact Hj.
Qed.

(** With a single membership row there is no other row to look at. *)
Lemma single_membership_no_other j r :
  single_membership db league user ->
  j <> i -> membership_table db !! j = Some r -> ~ is_membership_of league user r.
Proof.
  intros Hsingle Hne Hj Hr. destruct found_row as [Hlook Hm].
  apply Hne. exact (Hsingle j i r m Hj Hlook Hr Hm).
Qed.
End RoleChangeViews.

Lemma add_moderator_inv db league user db' :
  League.add_moderator db league user = Ok db' ->
  exists i m, League.find_membership db league user = Some (i, m) /\
              db' = with_row i (with_roles true false m) db.
Proof.
  unfold League.add_moderator.
  destruct (League.find_membership db league user) as [[i m]|]; [|discriminate].
  intros [= <-]. eauto.
Qed.

Lemma add_owner_inv db league user db' :
  League.add_owner db league user = Ok db' ->
  exists i m, League.find_membership db league user = Some (i, m) /\
              db' = with_row i (with_roles false true m) db.
Proof.
  unfold League.add_owner.
  destruct (League.find_membership db league user) as [[i m]|]; [|discriminate].
  intros [= <-]. eauto.
Qed.

Lemma is_member_find db league (user : User.t) :
  is_member db user league = true ->
  exists i m, League.find_membership db league user = Some (i, m).
Proof.
  intros Hmem.
  destruct (League.find_membership db league user) as [[i m]|] eqn:Hfind; [eauto|].
  apply find_membership_None in Hfind. congruence.
Qed.

Lemma editable_by_moderator db league (user : User.t) :
  User.id user ∈ LeagueMethods.get_moderators db league ->
  LeagueMethods.editable_by_user db league user = true.
Proof.
  intros Hmo. unfold LeagueMethods.editable_by_user.
  apply orb_true_iff. right. apply bool_decide_eq_true. exact Hmo.
Qed.

Lemma add_moderator_grants db league (user : User.t) :
  is_member db user league = true ->
  exists db', League.add_moderator db league user = Ok db' /\
              User.id user ∈ LeagueMethods.get_moderators db' league /\
              LeagueMethods.editable_by_user db' league user = true.
Proof.
  intros Hmem. destruct (is_member_find _ _ _ Hmem) as (i & m & Hfind).
  exists (with_row i (with_roles true false m) db).
  split; [apply add_moderator_found, Hfind|].
  assert (Hmo : User.id user ∈
    LeagueMethods.get_moderators (with_row i (with_roles true false m) db) league).
  { apply (role_change_moderators db league user i m true false Hfind). auto. }
  split; [exact Hmo | apply editable_by_moderator, Hmo].
Qed.

(** X4: [add_member] makes the user a member of the league: it puts the
    user at the end of the league's members and changes neither the
    members of another league nor any league's moderators or owners. *)
Theorem add_member_effects db league (user : User.t) :
  exists db',
    League.add_member db league user = Ok db' /\
    is_member db' user league = true /\
    LeagueMethods.get_members db' league =
      LeagueMethods.get_members db league ++ [User.id user] /\
    (forall l', League.id l' <> League.id league ->
       LeagueMethods.get_members db' l' = LeagueMethods.get_members db l') /\
    (forall l', LeagueMethods.get_moderators db' l' = LeagueMethods.get_moderators db l' /\
                LeagueMethods.get_owners db' l' = LeagueMethods.get_owners db l').
Proof.
  eexists. split; [reflexivity|]. split; [|split; [|split]].
  - apply is_member_spec. eexists. split.
    + simpl. apply elem_of_app. right. apply list_elem_of_here.
    + split; reflexivity.
  - unfold LeagueMethods.get_members, LeagueMethods.members. simpl.
    rewrite filter_app, fmap_app, filter_cons_True by reflexivity. reflexivity.
  - intros l' Hne.
    unfold LeagueMethods.get_members, LeagueMethods.members. simpl.
    rewrite filter_app, fmap_app, filter_cons_False by (simpl; congruence).
    apply app_nil_r.
  - intros l'. unfold LeagueMethods.get_moderators, LeagueMethods.get_owners. simpl.
    rewrite !filter_app, !fmap_app.
    rewrite !filter_cons_False by (simpl; intros [_ ?]; discriminate).
    rewrite !app_nil_r. split; reflexivity.
Qed.

Lemma add_member_effects_witness :
  exists db',
    League.add_member club_db club carol = Ok db' /\
    LeagueMethods.get_members db' club = [7; 8; 9] /\
    LeagueMethods.get_members db' league_one = [].
Proof.
  destruct (add_member_effects club_db club carol)
    as (db' & Hok & _ & Hmembers & Hother & _).
  exists db'. split; [exact Hok|]. split; [exact Hmembers|].
  rewrite (Hother league_one); [reflexivity|]. simpl. lia.
Defined.

(** X5: for a member of the league [add_moderator] succeeds, after it the
    user is among the league's moderators and may edit the league. *)
Theorem add_moderator_grants_edit db league (user : User.t) :
  is_member db user league = true ->
  exists db', League.add_moderator db league user = Ok db' /\
              User.id user ∈ LeagueMethods.get_moderators db' league /\
              LeagueMethods.editable_by_user db' league user = true.
Proof. apply add_moderator_grants. Qed.

Lemma add_moderator_grants_edit_witness :
  LeagueMethods.editable_by_user club_db club bob = false /\
  exists db', League.add_moderator club_db club bob = Ok db' /\
              LeagueMethods.editable_by_user db' club bob = true.
Proof.
  split; [reflexivity|].
  destruct (add_moderator_grants_edit club_db club bob) as (db' & Hok & _ & Hedit);
    [reflexivity|].
  exists db'. split; assumption.
Defined.

(** X6: [add_member] followed by [add_moderator] always succeeds and leaves
    the user able to edit the league, whatever the session held before. *)
Theorem add_member_then_add_moderator db league (user : User.t) :
  exists db1 db2,
    League.add_member db league user = Ok db1 /\
    League.add_moderator db1 league user = Ok db2 /\
    LeagueMethods.editable_by_user db2 league user = true.
Proof.
  eexists.
  assert (Hmem : is_member
    (set_membership_table
       (membership_table db ++ [League.new_membership db user league false false]) db)
    user league = true).
  { apply is_member_spec. eexists. split.
    - simpl. apply elem_of_app. right. apply list_elem_of_here.
    - split; reflexivity. }
  destruct (add_moderator_grants _ _ _ Hmem) as (db2 & Hok & _ & Hedit).
  exists db2. split; [reflexivity|]. split; assumption.
Qed.

(** X7: making a user an owner takes the moderator role away: for a user
    with a single membership in the league who is not its creator, after
    [add_owner] the user is among the owners, not among the moderators, and
    may no longer edit the league; after [add_moderator] the user is not
    among the owners. *)
Theorem add_owner_revokes_edit db league (user : User.t) :
  single_membership db league user ->
  is_member db user league = true ->
  (exists db', League.add_owner db league user = Ok db' /\
               User.id user ∈ LeagueMethods.get_owners db' league /\
               (User.id user ∉ LeagueMethods.get_moderators db' league) /\
               (User.id user <> League.creator_id league ->
                LeagueMethods.editable_by_user db' league user = false)) /\
  (exists db', League.add_moderator db league user = Ok db' /\
               User.id user ∉ LeagueMethods.get_owners db' league).
Proof.
  intros Hsingle Hmem. destruct (is_member_find _ _ _ Hmem) as (i & m & Hfind).
  split.
  - exists (with_row i (with_roles false true m) db).
    split; [apply add_owner_found, Hfind|].
    assert (Hnot : User.id user ∉
      LeagueMethods.get_moderators (with_row i (with_roles false true m) db) league).
    { rewrite (role_change_moderators db league user i m false true Hfind).
      intros [?|(j & r & Hne & Hj & Hr & _)]; [discriminate|].
      exact (single_membership_no_other db league user i m Hfind j r Hsingle Hne Hj Hr). }
    split; [|split; [exact Hnot|]].
    + apply (role_change_owners db league user i m false true Hfind). auto.
    + intros Hcreator. unfold LeagueMethods.editable_by_user.
      apply orb_false_iff. split; [apply Z.eqb_neq, Hcreator|].
      apply bool_decide_eq_false. exact Hnot.
  - exists (with_row i (with_roles true false m) db).
    split; [apply add_moderator_found, Hfind|].
    rewrite (role_change_owners db league user i m true false Hfind).
    intros [?|(j & r & Hne & Hj & Hr & _)]; [discriminate|].
    exact (single_membership_no_other db league user i m Hfind j r Hsingle Hne Hj Hr).
Qed.

(** League 3 after user 8 was made a moderator. *)
Lemma add_owner_revokes_edit_witness :
  let db := mkDB [] [] [Membership.mk 1 7 3 false true; Membership.mk 2 8 3 true false] in
  LeagueMethods.editable_by_user db club bob = true /\
  exists db', League.add_owner db club bob = Ok db' /\
              LeagueMethods.editable_by_user db' club bob = false.
Proof.
  cbv zeta. split; [reflexivity|].
  destruct (add_owner_revokes_edit
    (mkDB [] [] [Membership.mk 1 7 3 false true; Membership.mk 2 8 3 true false])
    club bob) as ((db' & Hok & _ & _ & Hedit) & _).
  - intros [|[|[|i]]] [|[|[|j]]] m1 m2 H1 H2 [Hl1 Hu1] [Hl2 Hu2];
      simpl in *; simplify_eq; try reflexivity; simpl in *; discriminate.
  - reflexivity.
  - exists db'. split; [exact Hok|]. apply Hedit. simpl. lia.
Defined.

(** X8: a role change leaves the members of every league, and every user's
    memberships, as they were. *)
Theorem role_change_keeps_members db league user db' :
  League.add_moderator db league user = Ok db' \/
  League.add_owner db league user = Ok db' ->
  forall l',
    LeagueMethods.get_members db' l' = LeagueMethods.get_members db l' /\
    forall u' : User.t, is_member db' u' l' = is_member db u' l'.
Proof.
  intros Hchange l'.
  assert (Hshape : exists i m mo ow,
            League.find_membership db league user = Some (i, m) /\
            db' = with_row i (with_roles mo ow m) db).
  { destruct Hchange as [H|H].
    - apply add_moderator_inv in H as (i & m & ? & ?). eauto 6.
    - apply add_owner_inv in H as (i & m & ? & ?). eauto 6. }
  destruct Hshape as (i & m & mo & ow & Hfind & ->). split.
  - apply (role_change_get_members db league user i m mo ow Hfind).
  - intros u'. simpl. unfold UserMethods.is_member.
    change (bool_decide (League.id l' ∈
              UserStandings.get_leagues (with_row i (with_roles mo ow m) db) u') =
            bool_decide (League.id l' ∈ UserStandings.get_leagues db u')).
    rewrite (role_change_get_leagues db league user i m mo ow Hfind). reflexivity.
Qed.

Lemma role_change_keeps_members_witness :
  exists db', League.add_owner club_db club bob = Ok db' /\
              LeagueMethods.get_members db' club = [7; 8].
Proof.
  exists (with_row 1 (with_roles false true (Membership.mk 2 8 3 false false))
                   club_db).
  split; [reflexivity|].
  destruct (role_change_keeps_members club_db club bob
              (with_row 1 (with_roles false true (Membership.mk 2 8 3 false false))
                        club_db)
              (or_intror eq_refl) club) as [Hmembers _].
  rewrite Hmembers. reflexivity.
Defined.

(** X9: role changes overwrite each other: repeating one changes nothing,
    and of two different ones in a row only the second counts; when the
    first fails, so does the pair. *)
Theorem role_change_last_write_wins db league user :
  (let* db1 := League.add_moderator db league user in
   League.add_moderator db1 league user)%py = League.add_moderator db league user /\
  (let* db1 := League.add_owner db league user in
   League.add_owner db1 league user)%py = League.add_owner db league user /\
  (let* db1 := League.add_moderator db league user in
   League.add_owner db1 league user)%py = League.add_owner db league user /\
  (let* db1 := League.add_owner db league user in
   League.add_moderator db1 league user)%py = League.add_moderator db league user.
Proof.
  assert (Hpair : forall mo ow mo' ow' i m,
    League.find_membership db league user = Some (i, m) ->
    with_row i (with_roles mo' ow' (with_roles mo ow m))
             (with_row i (with_roles mo ow m) db) =
    with_row i (with_roles mo' ow' m) db).
  { intros mo ow mo' ow' i m _. unfold with_row, set_membership_table. simpl.
    rewrite list_insert_insert_eq. reflexivity. }
  destruct (League.find_membership db league user) as [[i m]|] eqn:Hfind.
  - rewrite (add_moderator_found db league user i m Hfind).
    rewrite (add_owner_found db league user i m Hfind). simpl.
    pose proof (find_membership_insert db league user i m true false Hfind) as Hmo.
    pose proof (find_membership_insert db league user i m false true Hfind) as How.
    rewrite (add_moderator_found _ league user i _ Hmo).
    rewrite (add_owner_found _ league user i _ Hmo).
    rewrite (add_moderator_found _ league user i _ How).
    rewrite (add_owner_found _ league user i _ How).
    repeat split; f_equal; apply (Hpair _ _ _ _ i m eq_refl).
  - unfold League.add_moderator, League.add_owner. rewrite Hfind.
    repeat split; reflexivity.
Qed.

(** * Event classification and the league's listings *)

Section Comprehension.
Context {A : Type} (cond : A -> result bool).

Lemma comprehension_raise (rows : list A) x e :
  (forall y e', cond y = Raise e' -> e' = e) ->
  x ∈ rows -> cond x = Raise e -> comprehension cond rows = Raise e.
Proof.
  intros Honly Hin Hx. induction rows as [|r rows IH]; [inversion Hin|].
  simpl. destruct (cond r) as [b|e'] eqn:Hr; simpl.
  - apply elem_of_cons in Hin as [->|Hin]; [congruence|].
    rewrite (IH Hin). reflexivity.
  - f_equal. eapply Honly, Hr.
Qed.

Lemma comprehension_ok (rows : list A) :
  (forall x, x ∈ rows -> exists b, cond x = Ok b) ->
  exists out, comprehension cond rows = Ok out /\
              forall x, x ∈ out <-> x ∈ rows /\ cond x = Ok true.
Proof.
  induction rows as [|r rows IH]; intros Hall; simpl.
  - exists []. split; [reflexivity|]. intros x. split.
    + intros H. inversion H.
    + intros [H _]. inversion H.
  - destruct (Hall r) as [b Hb]; [apply list_elem_of_here|].
    destruct IH as (out & Hout & Hspec).
    { intros x Hx. apply Hall, list_elem_of_further, Hx. }
    rewrite Hb, Hout. simpl. eexists. split; [reflexivity|].
    intros x. destruct b.
    + rewrite !elem_of_cons, Hspec. split.
      * intros [->|[Hx Hc]]; auto.
      * intros [[->|Hx] Hc]; auto.
    + rewrite elem_of_cons, Hspec. split.
      * intros [Hx Hc]; auto.
      * intros [[->|Hx] Hc]; [congruence|auto].
Qed.
End Comprehension.

(** Either the event has no stage and the three classifications end in
    [AttributeError], or they return the comparisons of today with the
    event's two dates. *)
Lemma classification_cases today db ev :
  (Event.stages db ev = [] /\
   Event.is_past today db ev = Raise AttributeError /\
   Event.is_upcoming today db ev = Raise AttributeError /\
   Event.in_progress today db ev = Raise AttributeError) \/
  (Event.stages db ev <> [] /\
   exists S E, Event.get_start_date db ev = Ok S /\
               Event.get_end_date db ev = Ok E /\
               Event.is_past today db ev = Ok (E <=? today) /\
               Event.is_upcoming today db ev = Ok (today <=? S) /\
               Event.in_progress today db ev = Ok ((S <=? today) && (today <=? E))).
Proof.
  destruct (Event.stages db ev) as [|s0 ss0] eqn:Hss.
  - left. split; [reflexivity|].
    destruct (get_dates_empty db ev Hss) as [HS HE].
    rewrite is_past_unfold, is_upcoming_unfold, in_progress_unfold, HS, HE.
    repeat split.
  - right. split; [discriminate|].
    assert (Hne : Event.stages db ev <> []) by (rewrite Hss; discriminate).
    destruct (get_start_date_ok db ev Hne) as (s1 & _ & _ & HS).
    destruct (get_end_date_ok db ev Hne) as (s2 & _ & _ & HE).
    exists (Stage.start_date s1), (Stage.end_date s2).
    rewrite is_past_unfold, is_upcoming_unfold, in_progress_unfold, HS, HE.
    simpl. repeat split. destruct (Stage.start_date s1 <=? today); reflexivity.
Qed.

(** X10: the three classifications of an event end in [AttributeError]
    exactly when the event has no stage; with a stage each of them returns
    a truth value, whatever the stages' dates. *)
Theorem classification_fails_iff_unstaged today db ev :
  (Event.is_past today db ev = Raise AttributeError <-> Event.stages db ev = []) /\
  (Event.is_upcoming today db ev = Raise AttributeError <-> Event.stages db ev = []) /\
  (Event.in_progress today db ev = Raise AttributeError <-> Event.stages db ev = []) /\
  (Event.stages db ev <> [] ->
   exists past upcoming progress,
     Event.is_past today db ev = Ok past /\
     Event.is_upcoming today db ev = Ok upcoming /\
     Event.in_progress today db ev = Ok progress).
Proof.
  destruct (classification_cases today db ev)
    as [(Hnil & Hp & Hu & Hi)|(Hne & S & E & _ & _ & Hp & Hu & Hi)].
  - rewrite Hp, Hu, Hi, Hnil.
    split; [tauto|]. split; [tauto|]. split; [tauto|].
    intros H. contradiction.
  - rewrite Hp, Hu, Hi.
    assert (Hiff : forall b : bool,
      Ok b = Raise AttributeError <-> Event.stages db ev = []).
    { intros b. split; [discriminate|contradiction]. }
    split; [apply Hiff|]. split; [apply Hiff|]. split; [apply Hiff|].
    intros _. do 3 eexists. repeat split.
Qed.

Lemma classification_fails_iff_unstaged_witness :
  exists past upcoming progress,
    Event.is_past 738888 january_db january_event = Ok past /\
    Event.is_upcoming 738888 january_db january_event = Ok upcoming /\
    Event.in_progress 738888 january_db january_event = Ok progress.
Proof.
  apply (classification_fails_iff_unstaged 738888 january_db january_event).
  discriminate.
Defined.

(** X11: one event without a stage breaks all three listings of its
    league: each of them ends in [AttributeError]. *)
Theorem listings_fail_on_unstaged_event today s league ev :
  ev ∈ LeagueMethods.events s league ->
  Event.stages (tables s) ev = [] ->
  LeagueMethods.current_events today s league = Raise AttributeError /\
  LeagueMethods.past_events today s league = Raise AttributeError /\
  LeagueMethods.upcoming_events today s league = Raise AttributeError.
Proof.
  intros Hin Hnil.
  assert (Honly : forall y,
    (forall e', Event.in_progress today (tables s) y = Raise e' -> e' = AttributeError) /\
    (forall e', Event.is_past today (tables s) y = Raise e' -> e' = AttributeError) /\
    (forall e', Event.is_upcoming today (tables s) y = Raise e' -> e' = AttributeError)).
  { intros y. destruct (classification_cases today (tables s) y)
      as [(_ & -> & -> & ->)|(_ & S & E & _ & _ & -> & -> & ->)];
      repeat split; congruence. }
  destruct (classification_cases today (tables s) ev)
    as [(_ & Hp & Hu & Hi)|(Hne & _)]; [|contradiction].
  unfold LeagueMethods.current_events, LeagueMethods.past_events,
    LeagueMethods.upcoming_events.
  split; [|split].
  - eapply comprehension_raise; [|exact Hin|exact Hi]. intros y. apply Honly.
  - eapply comprehension_raise; [|exact Hin|exact Hp]. intros y. apply Honly.
  - eapply comprehension_raise; [|exact Hin|exact Hu]. intros y. apply Honly.
Qed.

Lemma listings_fail_on_unstaged_event_witness :
  LeagueMethods.current_events 738888 unstaged_session league_one = Raise AttributeError /\
  LeagueMethods.past_events 738888 unstaged_session league_one = Raise AttributeError /\
  LeagueMethods.upcoming_events 738888 unstaged_session league_one = Raise AttributeError.
Proof.
  apply (listings_fail_on_unstaged_event 738888 unstaged_session league_one (Event.mk 2 1)).
  - apply list_elem_of_further, list_elem_of_here.
  - reflexivity.
Defined.

(** X12: when every event of the league has a stage and stages start no
    later than they end, the three listings return, they list events of
    the league only and every event of the league is in at least one of
    them; an event for which today differs from what [get_start_date] and
    [get_end_date] return is in exactly one. *)
Theorem listings_cover_the_league today s league :
  (forall ev, ev ∈ LeagueMethods.events s league -> staged (tables s) ev) ->
  exists current past upcoming,
    LeagueMethods.current_events today s league = Ok current /\
    LeagueMethods.past_events today s league = Ok past /\
    LeagueMethods.upcoming_events today s league = Ok upcoming /\
    (forall ev, ev ∈ current \/ ev ∈ past \/ ev ∈ upcoming <->
                ev ∈ LeagueMethods.events s league) /\
    (forall ev S E,
       ev ∈ LeagueMethods.events s league ->
       Event.get_start_date (tables s) ev = Ok S ->
       Event.get_end_date (tables s) ev = Ok E ->
       today <> S -> today <> E ->
       (ev ∈ past /\ (ev ∉ upcoming) /\ (ev ∉ current)) \/
       ((ev ∉ past) /\ ev ∈ upcoming /\ (ev ∉ current)) \/
       ((ev ∉ past) /\ (ev ∉ upcoming) /\ ev ∈ current)).
Proof.
  intros Hstaged.
  assert (Hvals : forall ev, ev ∈ LeagueMethods.events s league ->
    exists S E, S <= E /\
      Event.get_start_date (tables s) ev = Ok S /\
      Event.get_end_date (tables s) ev = Ok E /\
      Event.is_past today (tables s) ev = Ok (E <=? today) /\
      Event.is_upcoming today (tables s) ev = Ok (today <=? S) /\
      Event.in_progress today (tables s) ev = Ok ((S <=? today) && (today <=? E))).
  { intros ev Hin. destruct (Hstaged ev Hin) as [Hne Hwf].
    destruct (start_le_end (tables s) ev Hne Hwf) as (S & E & HS & HE & Hle).
    destruct (classification_cases today (tables s) ev)
      as [(Hnil & _)|(_ & S' & E' & HS' & HE' & Hp & Hu & Hi)]; [contradiction|].
    exists S, E. rewrite HS in HS'. rewrite HE in HE'.
    injection HS' as <-. injection HE' as <-. auto 10. }
  destruct (comprehension_ok (fun ev => Event.in_progress today (tables s) ev)
              (LeagueMethods.events s league)) as (current & Hcur & Hcur_spec).
  { intros ev Hin. destruct (Hvals ev Hin) as (S & E & _ & _ & _ & _ & _ & ->). eauto. }
  destruct (comprehension_ok (fun ev => Event.is_past today (tables s) ev)
              (LeagueMethods.events s league)) as (past & Hpast & Hpast_spec).
  { intros ev Hin. destruct (Hvals ev Hin) as (S & E & _ & _ & _ & -> & _). eauto. }
  destruct (comprehension_ok (fun ev => Event.is_upcoming today (tables s) ev)
              (LeagueMethods.events s league)) as (upcoming & Hup & Hup_spec).
  { intros ev Hin. destruct (Hvals ev Hin) as (S & E & _ & _ & _ & _ & -> & _). eauto. }
  exists current, past, upcoming.
  split; [exact Hcur|]. split; [exact Hpast|]. split; [exact Hup|]. split.
  - intros ev. rewrite Hcur_spec, Hpast_spec, Hup_spec. split; [tauto|].
    intros Hin. destruct (Hvals ev Hin) as (S & E & Hle & _ & _ & -> & -> & ->).
    destruct (Z.leb_spec E today), (Z.leb_spec today S), (Z.leb_spec S today),
      (Z.leb_spec today E); simpl; try lia; auto.
  - intros ev S E Hin HS HE HnS HnE.
    rewrite Hcur_spec, Hpast_spec, Hup_spec.
    destruct (Hvals ev Hin) as (S' & E' & Hle & HS' & HE' & -> & -> & ->).
    rewrite HS in HS'. rewrite HE in HE'. injection HS' as <-. injection HE' as <-.
    destruct (Z.leb_spec E today), (Z.leb_spec today S), (Z.leb_spec S today),
      (Z.leb_spec today E); simpl; try lia;
      [left|right; left|right; right]; repeat split; auto;
      intros [_ ?]; discriminate.
Qed.

Lemma listings_cover_the_league_witness :
  exists current past upcoming,
    LeagueMethods.current_events 738888 scenario_session league_one = Ok current /\
    LeagueMethods.past_events 738888 scenario_session league_one = Ok past /\
    LeagueMethods.upcoming_events 738888 scenario_session league_one = Ok upcoming /\
    january_event ∈ current /\ (january_event ∉ past) /\ (january_event ∉ upcoming).
Proof.
  destruct (listings_cover_the_league 738888 scenario_session league_one)
    as (current & past & upcoming & Hcur & Hpast & Hup & _ & Hone).
  { intros ev Hin. apply list_elem_of_singleton in Hin as ->.
    split; [discriminate|]. repeat constructor. simpl. lia. }
  exists current, past, upcoming.
  split; [exact Hcur|]. split; [exact Hpast|]. split; [exact Hup|].
  vm_compute in Hcur, Hpast, Hup.
  injection Hcur as <-. injection Hpast as <-. injection Hup as <-.
  split; [apply list_elem_of_here|]. split; apply not_elem_of_nil.
Defined.

(** * Enrolment *)

Lemma is_participant_spec s ev (user : User.t) :
  EventMethods.is_participant s ev user = true <->
  exists p, p ∈ participant_table s /\
            Participant.event_id p = Event.id ev /\ Participant.user_id p = User.id user.
Proof.
  unfold EventMethods.is_participant, EventMethods.participants, first.
  destruct (filter _ (filter _ (participant_table s))) as [|p ps] eqn:Hf; simpl.
  - split; [discriminate|]. intros (p & Hin & He & Hu).
    assert (Hp : p ∈ @nil Participant.t); [|inversion Hp].
    rewrite <- Hf. apply list_elem_of_filter. split; [exact Hu|].
    apply list_elem_of_filter. auto.
  - split; [intros _|reflexivity].
    assert (Hp : p ∈ p :: ps) by apply list_elem_of_here.
    rewrite <- Hf in Hp. apply list_elem_of_filter in Hp as [Hu Hp].
    apply list_elem_of_filter in Hp as [He Hin]. eauto.
Qed.

(** X13: [add_participant] enrols the user: afterwards [is_participant] is
    true for the user and the event and unchanged for every other pair; the
    event has one participant row more, also when the user was enrolled
    already; the other tables are untouched. *)
Theorem add_participant_enrols s ev (user : User.t) :
  let s' := EventMethods.add_participant s ev user in
  EventMethods.is_participant s' ev user = true /\
  (forall ev' (u' : User.t),
     Event.id ev' <> Event.id ev \/ User.id u' <> User.id user ->
     EventMethods.is_participant s' ev' u' = EventMethods.is_participant s ev' u') /\
  length (EventMethods.participants s' ev) = S (length (EventMethods.participants s ev)) /\
  tables s' = tables s /\ event_table s' = event_table s.
Proof.
  intros s'. subst s'. split; [|split; [|split]].
  - apply is_participant_spec. eexists. split.
    + simpl. apply elem_of_app. right. apply list_elem_of_here.
    + split; reflexivity.
  - intros ev' u' Hother.
    unfold EventMethods.is_participant, EventMethods.participants. simpl.
    rewrite filter_app, filter_app.
    match goal with |- context [filter ?P (filter ?Q [?p])] =>
      assert (Hnil : filter P (filter Q [p]) = []) end.
    { rewrite filter_cons. destruct (decide _) as [He|He]; simpl in *.
      - rewrite filter_cons_False; [reflexivity|].
        simpl. intros Hu. destruct Hother; congruence.
      - reflexivity. }
    rewrite Hnil, app_nil_r. reflexivity.
  - unfold EventMethods.participants. simpl.
    rewrite filter_app, filter_cons_True by reflexivity.
    rewrite length_app. simpl. lia.
  - split; reflexivity.
Qed.

Lemma add_participant_enrols_witness :
  let s' := EventMethods.add_participant unstaged_session january_event carol in
  EventMethods.is_participant s' january_event carol = true /\
  EventMethods.is_participant s' january_event alice = false /\
  EventMethods.is_participant s' (Event.mk 2 1) carol = false.
Proof.
  cbv zeta.
  destruct (add_participant_enrols unstaged_session january_event carol)
    as (Hin & Hother & _).
  split; [exact Hin|]. split.
  - rewrite (Hother january_event alice); [reflexivity|]. right. simpl. lia.
  - rewrite (Hother (Event.mk 2 1) carol); [reflexivity|]. left. simpl. lia.
Defined.

(** * A user's standings *)

Section UserLoops.
Context {P A : Type} (f : P -> list A) (g h : P -> nat).

Lemma foldl_extend_length (ps : list P) : forall acc n,
  (forall p, length (f p) = g p) -> length acc = n ->
  length (foldl (fun a p => a ++ f p) acc ps) = foldl (fun k p => (k + g p)%nat) n ps.
Proof.
  induction ps as [|p ps IH]; intros acc n Hfg Hacc; simpl; [exact Hacc|].
  apply IH; [exact Hfg|]. rewrite length_app, Hfg, Hacc. reflexivity.
Qed.

Lemma foldl_extend_elem_of (ps : list P) x : forall acc,
  x ∈ foldl (fun a p => a ++ f p) acc ps <->
  x ∈ acc \/ exists p, p ∈ ps /\ x ∈ f p.
Proof.
  induction ps as [|p ps IH]; intros acc; simpl.
  - split; [auto|]. intros [H|(p & Hp & _)]; [exact H|inversion Hp].
  - rewrite IH, elem_of_app. split.
    + intros [[H|H]|(q & Hq & Hx)]; auto.
      * right. exists p. split; [apply list_elem_of_here|exact H].
      * right. exists q. split; [apply list_elem_of_further, Hq|exact Hx].
    + intros [H|(q & Hq & Hx)]; auto.
      apply elem_of_cons in Hq as [->|Hq]; eauto.
Qed.

Lemma foldl_sum_le (ps : list P) : forall n k,
  (forall p, (g p <= h p)%nat) -> (n <= k)%nat ->
  (foldl (fun a p => (a + g p)%nat) n ps <= foldl (fun a p => (a + h p)%nat) k ps)%nat.
Proof.
  induction ps as [|p ps IH]; intros n k Hgh Hnk; simpl; [exact Hnk|].
  apply IH; [exact Hgh|]. specialize (Hgh p). lia.
Qed.
End UserLoops.

(** The division of two counts. *)
Lemma truediv_cases (won total : nat) :
  (total = 0%nat -> truediv won total = Raise ZeroDivisionError) /\
  ((0 < total)%nat ->
   exists q, truediv won total = Ok q /\
             (q == inject_Z (Z.of_nat won) / inject_Z (Z.of_nat total))%Q /\
             ((won <= total)%nat -> (0 <= q <= 1)%Q)).
Proof.
  split; [intros ->; reflexivity|].
  intros Hpos. destruct total as [|n]; [lia|].
  eexists. split; [reflexivity|].
  assert (Hden : Z.pos (Pos.of_nat (S n)) = Z.of_nat (S n)).
  { rewrite <- positive_nat_Z, Nat2Pos.id by lia. reflexivity. }
  split.
  - rewrite <- Hden. unfold Qeq, Qdiv, Qmult, Qinv, inject_Z. simpl. lia.
  - intros Hle. unfold Qle. cbn [Qnum Qden]. rewrite Hden. lia.
Qed.

(** X14: the two loops over a user's participants agree: the match count
    is the length of the match list, and the won count the length of the
    list of won matches. *)
Theorem user_counts_agree s user :
  length (UserStandings.get_matches s user) = UserStandings.get_matches_count s user /\
  length (UserStandings.get_matches_won s user) = UserStandings.get_matches_won_count s user.
Proof.
  unfold UserStandings.get_matches, UserStandings.get_matches_count,
    UserStandings.get_matches_won, UserStandings.get_matches_won_count.
  split; apply foldl_extend_length; reflexivity.
Qed.

(** X15: a user's matches are the matches of the user's participants: a
    match is in [get_matches] exactly when it is a row of the match table
    with one of the user's participants as participant 1 or 2. *)
Theorem user_matches_are_participants_matches s user m :
  m ∈ UserStandings.get_matches s user <->
  exists p, p ∈ participant_table s /\ Participant.user_id p = User.id user /\
            m ∈ match_table (tables s) /\
            (Match.p1_id m = Participant.id p \/ Match.p2_id m = Participant.id p).
Proof.
  unfold UserStandings.get_matches, UserStandings.participants.
  rewrite foldl_extend_elem_of. unfold Participant.get_matches. split.
  - intros [H|(p & Hp & Hm)]; [inversion H|].
    apply list_elem_of_filter in Hp as [Hu Hp].
    apply list_elem_of_filter in Hm as [Hside Hm]. eauto 6.
  - intros (p & Hp & Hu & Hm & Hside). right. exists p.
    split; apply list_elem_of_filter; auto.
Qed.

(** X16: a user's win percentage ends in [ZeroDivisionError] when the
    user's participants have no match (in particular when the user never
    enrolled); otherwise it is the won count divided by the match count,
    in [0, 1] when every winner that is set is a participant of its
    match. *)
Theorem user_match_win_percentage_spec s user :
  let won := UserStandings.get_matches_won_count s user in
  let total := UserStandings.get_matches_count s user in
  (UserStandings.participants s user = [] -> total = 0%nat) /\
  (total = 0%nat ->
   UserStandings.match_win_percentage s user = Raise ZeroDivisionError) /\
  ((0 < total)%nat ->
   exists q, UserStandings.match_win_percentage s user = Ok q /\
             (q == inject_Z (Z.of_nat won) / inject_Z (Z.of_nat total))%Q /\
             (Forall winner_in_match (match_table (tables s)) -> (0 <= q <= 1)%Q)).
Proof.
  intros won total. unfold UserStandings.match_win_percentage.
  fold won. fold total.
  destruct (truediv_cases won total) as [Hzero Hpos].
  split; [|split].
  - subst total. unfold UserStandings.get_matches_count. intros ->. reflexivity.
  - exact Hzero.
  - intros Htotal. destruct (Hpos Htotal) as (q & Hq & Heq & Hrange).
    exists q. split; [exact Hq|]. split; [exact Heq|].
    intros Hwf. apply Hrange. subst won total.
    unfold UserStandings.get_matches_won_count, UserStandings.get_matches_count.
    apply foldl_sum_le; [|lia]. intros p.
    unfold Participant.get_matches_won_count, Participant.get_matches_count.
    apply filter_length_le.
    eapply Forall_impl; [exact Hwf|]. simpl.
    intros r Hw Hwin. destruct (Hw _ Hwin); auto.
Qed.

Lemma user_match_win_percentage_spec_witness :
  UserStandings.match_win_percentage unstaged_session alice = Raise ZeroDivisionError /\
  exists q, UserStandings.match_win_percentage scenario_session alice = Ok q /\
            (q == 1 # 2)%Q /\ (0 <= q <= 1)%Q.
Proof.
  destruct (user_match_win_percentage_spec unstaged_session alice) as (Hnone & Hzero & _).
  destruct (user_match_win_percentage_spec scenario_session alice) as (_ & _ & Hpos).
  split; [apply Hzero, Hnone; reflexivity|].
  destruct Hpos as (q & Hq & Heq & Hrange); [vm_compute; lia|].
  exists q. split; [exact Hq|]. split; [rewrite Heq; reflexivity|].
  apply Hrange. unfold scenario_session, tables, scenario_db, match_table.
  check_outcomes.
Defined.

(** * Resubmitting results *)

(** X17: [add_results] replaces rather than accumulates: repeating a call
    with the same scoreline at a later time changes the timestamp and
    nothing else, and after a call that reaches a threshold the match is
    the same whatever results an earlier call had stored. *)
Theorem add_results_overwrites now m a b d :
  (forall now0,
     let once := Match.add_results now0 m a b d in
     let twice := Match.add_results now once a b d in
     twice = Match.add_results now m a b d /\
     Match.timestamp twice = Some now /\
     Match.id twice = Match.id once /\
     Match.stage_id twice = Match.stage_id once /\
     Match.p1_id twice = Match.p1_id once /\
     Match.p2_id twice = Match.p2_id once /\
     Match.winner twice = Match.winner once /\
     Match.loser twice = Match.loser once /\
     Match.p1_wins twice = Match.p1_wins once /\
     Match.p2_wins twice = Match.p2_wins once /\
     Match.draws twice = Match.draws once) /\
  (2 <= a \/ 2 <= b ->
   forall now0 a0 b0 d0,
     Match.add_results now (Match.add_results now0 m a0 b0 d0) a b d =
       Match.add_results now m a b d).
Proof.
  split.
  - intros now0. cbv zeta. unfold Match.add_results. destruct m.
    destruct (2 <=? a), (2 <=? b); repeat split.
  - intros Hdec now0 a0 b0 d0. unfold Match.add_results. destruct m.
    destruct (Z.leb_spec 2 a), (Z.leb_spec 2 b); try lia;
      destruct (2 <=? a0), (2 <=? b0); reflexivity.
Qed.

Lemma add_results_overwrites_witness :
  let m := Match.__init__ 1 1 10 20 in
  Match.add_results 9 (Match.add_results 5 m 2 1 0) 0 2 1 = Match.add_results 9 m 0 2 1 /\
  Match.add_results 2 (Match.add_results 1 m 1 1 0) 1 1 0 = Match.add_results 2 m 1 1 0 /\
  Match.add_results 2 (Match.add_results 1 m 1 1 0) 1 1 0 <> Match.add_results 1 m 1 1 0.
Proof.
  cbv zeta.
  destruct (add_results_overwrites 9 (Match.__init__ 1 1 10 20) 0 2 1) as [_ Hover].
  destruct (add_results_overwrites 2 (Match.__init__ 1 1 10 20) 1 1 0) as [Hagain _].
  split; [apply Hover; right; lia|].
  split; [apply (Hagain 1)|].
  intros Heq. apply (f_equal Match.timestamp) in Heq.
  destruct (Hagain 1) as (_ & Hts & _). rewrite Hts in Heq. discriminate Heq.
Defined.

(** * Further facts on dates and standings *)

(** X18: an event all of whose stages start no later than they end starts
    no later than it ends, and it can be upcoming and past on the same day
    only when it starts and ends that day. *)
Theorem event_starts_no_later_than_it_ends today db ev :
  staged db ev ->
  exists S E,
    Event.get_start_date db ev = Ok S /\ Event.get_end_date db ev = Ok E /\
    S <= E /\
    (Event.is_upcoming today db ev = Ok true ->
     Event.is_past today db ev = Ok true -> S = today /\ E = today).
Proof.
  intros [Hne Hwf].
  destruct (start_le_end db ev Hne Hwf) as (S & E & HS & HE & Hle).
  exists S, E. split; [exact HS|]. split; [exact HE|]. split; [exact Hle|].
  rewrite is_upcoming_unfold, is_past_unfold, HS, HE. simpl.
  intros [= Hu] [= Hp]. apply Z.leb_le in Hu, Hp. lia.
Qed.

Lemma event_starts_no_later_than_it_ends_witness :
  exists S E,
    Event.get_start_date nested_db january_event = Ok S /\
    Event.get_end_date nested_db january_event = Ok E /\ S <= E.
Proof.
  destruct (event_starts_no_later_than_it_ends 738888 nested_db january_event)
    as (S & E & HS & HE & Hle & _).
  { split; [discriminate|]. repeat constructor; simpl; lia. }
  exists S, E. auto.
Defined.

(** X19: with well-formed outcomes, every match a participant won or lost
    is one of the participant's matches, and no match is both won and lost
    by the same participant. *)
Theorem won_and_lost_are_own_matches db p m :
  Forall outcome_wf (match_table db) ->
  (m ∈ Participant.get_matches_won db p ->
   m ∈ Participant.get_matches db p /\ (m ∉ Participant.get_matches_lost db p)) /\
  (m ∈ Participant.get_matches_lost db p -> m ∈ Participant.get_matches db p).
Proof.
  intros Hwf. rewrite Forall_forall in Hwf.
  unfold Participant.get_matches_won, Participant.get_matches_lost,
    Participant.get_matches.
  rewrite !list_elem_of_filter. split.
  - intros [Hwin Hin]. destruct (Hwf m Hin) as (Hw & _ & Hwl). split.
    + split; [|exact Hin]. destruct (Hw _ Hwin); auto.
    + intros [Hlose _]. exact (Hwl _ _ Hwin Hlose eq_refl).
  - intros [Hlose Hin]. destruct (Hwf m Hin) as (_ & Hl & _).
    split; [|exact Hin]. destruct (Hl _ Hlose); auto.
Qed.

Lemma won_and_lost_are_own_matches_witness :
  let m := Match.add_results 100 (Match.__init__ 1 1 10 20) 2 0 0 in
  m ∈ Participant.get_matches scenario_db p10 /\
  (m ∉ Participant.get_matches_lost scenario_db p10).
Proof.
  cbv zeta.
  apply (won_and_lost_are_own_matches scenario_db p10).
  - unfold scenario_db, match_table. check_outcomes.
  - apply list_elem_of_here.
Defined.
